(** * Policy-bulletin rule extraction: a model of [main.py]

    The program fetches an insurer's clinical policy page, takes the text of
    the ordered list that follows the "Policy" heading, asks a language model
    to turn that text into JSON, and validates the JSON against the recursive
    [Rule] / [Guideline] schema.

    Conventions of the model.
    - A Python [str] is a [string]; every character stands for the code point
      of the same number.  Texts that come from outside hold code points
      below 256 only; a code point above 255 that a JSON escape spells is
      kept as the bytes of its UTF-8 form.
    - The values [json.loads] returns are the inductive type [json]; a Python
      [dict] is an association list read by first match and written in place.
    - The parsed page is a tree of [node]s, as BeautifulSoup builds it.
    - The transport, the language-model client, the HTML tree builder and the
      JSON reader are collaborators: the pipeline takes them as parameters,
      and every call to the outside world is appended to a log of [event]s.
    - A Python exception is a value of [exn]; a computation returns
      [Ok v] or [Raise e] together with the log.  The transport, the client
      and the JSON reader may raise any exception, also one outside the
      class [Exception].
    - The limits the libraries set are part of the model: the recursion
      limit and the integer digit limit of the JSON reader, the recursion
      guard of the schema validator and serializer. *)

From Stdlib Require Import String Ascii List Bool Arith NArith Lia.
Import ListNotations.
Local Open Scope list_scope.
Local Open Scope string_scope.
Set Warnings "-register-all".

(** ** Strings *)

Module Str.

(** The characters the source spells as escapes. *)
Definition nl_char : ascii := ascii_of_nat 10.
Definition dq_char : ascii := ascii_of_nat 34.
Definition nl : string := String nl_char EmptyString.
Definition dq : string := String dq_char EmptyString.

(** [quote s] is [s] between two double-quote characters. *)
Definition quote (s : string) : string := dq ++ s ++ dq.

(** [str.isspace] on one character, for code points below 256:
    TAB, LF, VT, FF, CR, FS, GS, RS, US, SPACE, NEL, NBSP. *)
Definition isspace (c : ascii) : bool :=
  let n := nat_of_ascii c in
  ((9 <=? n)%nat && (n <=? 13)%nat) || ((28 <=? n)%nat && (n <=? 32)%nat)
  || (n =? 133)%nat || (n =? 160)%nat.

(** [s.lstrip()] *)
Fixpoint lstrip (s : string) : string :=
  match s with
  | EmptyString => EmptyString
  | String c r => if isspace c then lstrip r else s
  end.

(** [s.rstrip()] *)
Fixpoint rstrip (s : string) : string :=
  match s with
  | EmptyString => EmptyString
  | String c r =>
      match rstrip r with
      | EmptyString => if isspace c then EmptyString else String c EmptyString
      | r' => String c r'
      end
  end.

(** [s.strip()] *)
Definition strip (s : string) : string := rstrip (lstrip s).

(** [s.startswith(p)] *)
Fixpoint startswith (p s : string) : bool :=
  match p, s with
  | EmptyString, _ => true
  | String a p', String b s' => Ascii.eqb a b && startswith p' s'
  | String _ _, EmptyString => false
  end.

(** [s.endswith(p)]: [p] is [s] or ends a proper tail of [s]. *)
Fixpoint endswith (p s : string) : bool :=
  String.eqb s p ||
  match s with
  | EmptyString => false
  | String _ r => endswith p r
  end.

(** [s.split(sep)] for a one-character separator: never empty. *)
Fixpoint split (sep : ascii) (s : string) : list string :=
  match s with
  | EmptyString => [EmptyString]
  | String c r =>
      if Ascii.eqb c sep then EmptyString :: split sep r
      else match split sep r with
           | h :: t => String c h :: t
           | [] => [String c EmptyString]
           end
  end.

(** [sep.join(ls)] *)
Definition join (sep : string) (ls : list string) : string :=
  String.concat sep ls.

(** The slice [ls[1:-1]]. *)
Definition slice_1_m1 {A : Type} (ls : list A) : list A := removelast (tl ls).

(** [c in s] for a character. *)
Fixpoint contains_char (c : ascii) (s : string) : bool :=
  match s with
  | EmptyString => false
  | String c' r => Ascii.eqb c' c || contains_char c r
  end.

End Str.

(** ** Exceptions *)

(** The exceptions of the program.  [ValueError] carries which message it
    was raised with; the third message embeds the exception it wraps.
    [External] is an exception of class [Exception] raised by a
    collaborator; [Interrupt] is one outside that class
    ([KeyboardInterrupt], [SystemExit]). *)
Inductive exn : Type :=
| JSONDecodeError
| ValidationError
| TypeError
| KeyError
| RecursionError
| External (what : string)
| Interrupt (what : string)
| ValueError (msg : value_error)
with value_error : Type :=
| Policy_header_not_found          (* "Policy header not found." *)
| Ordered_list_not_found           (* "Ordered list not found after the Policy header." *)
| Error_processing_output (e : exn) (* "Error processing output from OpenAI: {e}" *)
| Exceeds_int_digit_limit          (* "Exceeds the limit (4300 digits) for integer string conversion" *)
| Circular_reference_detected.     (* "Circular reference detected (depth exceeded)" *)

(** [isinstance(e, Exception)]: what [except Exception] catches. *)
Definition is_exception (e : exn) : bool :=
  match e with
  | Interrupt _ => false
  | _ => true
  end.

Inductive outcome (A : Type) : Type :=
| Ok (a : A)
| Raise (e : exn).
Arguments Ok {A} a.
Arguments Raise {A} e.

(** ** JSON values and Python dicts *)

Module Json.

(** What [json.loads] returns: [None], [bool], a number (kept as the digits
    read, since nothing in the program computes with it), [str], [list],
    [dict]. *)
Inductive json : Type :=
| JNull
| JBool (b : bool)
| JNumber (lexeme : string)
| JString (s : string)
| JArray (items : list json)
| JObject (fields : list (string * json)).

Definition dict : Type := list (string * json).

(** [d.get(k)] *)
Fixpoint dict_get (k : string) (d : dict) : option json :=
  match d with
  | [] => None
  | (k', v) :: r => if String.eqb k' k then Some v else dict_get k r
  end.

(** [k in d] *)
Definition dict_contains (k : string) (d : dict) : bool :=
  match dict_get k d with Some _ => true | None => false end.

(** [d[k] = v]: an existing key keeps its place, a new one goes last. *)
Fixpoint dict_set (k : string) (v : json) (d : dict) : dict :=
  match d with
  | [] => [(k, v)]
  | (k', v') :: r =>
      if String.eqb k' k then (k, v) :: r else (k', v') :: dict_set k v r
  end.

(** Applying a partial function to every entry of a list, failing as soon as
    one entry fails. *)
Section Traverse.
Context {A B : Type} (f : A -> option B).

Fixpoint traverse (l : list A) : option (list B) :=
  match l with
  | [] => Some []
  | x :: r =>
      match f x, traverse r with
      | Some y, Some ys => Some (y :: ys)
      | _, _ => None
      end
  end.

End Traverse.

(** *** A reference reader for JSON text

    [loads] follows the grammar [json.loads] accepts (strict mode): the six
    kinds of value, the constants [NaN], [Infinity] and [-Infinity], the
    four whitespace characters, no trailing data.  It raises
    [JSONDecodeError] on text outside the grammar, [RecursionError] when
    lists and dicts are nested deeper than the interpreter allows, and the
    plain [ValueError] of the integer conversion on an integer literal of
    more than 4300 digits.  An escape [\uXXXX] is read as [json.loads]
    reads it, a pair of surrogates as one code point; a code point above
    255, which only an escape can bring in, is kept as the bytes of its
    UTF-8 form. *)

(** [sys.getrecursionlimit()] *)
Definition recursion_limit : nat := 1000.

(** What is in use of that limit when the scanner starts: the frames of the
    module, [main], [extract_rules_with_openai], [json.loads], [decode] and
    [raw_decode], and the call of the scanner itself. *)
Definition frames_in_use : nat := 7.

(** [sys.get_int_max_str_digits()] *)
Definition int_max_str_digits : nat := 4300.

Definition is_ws (c : ascii) : bool :=
  let n := nat_of_ascii c in
  (n =? 32)%nat || (n =? 9)%nat || (n =? 10)%nat || (n =? 13)%nat.

Fixpoint skip_ws (s : string) : string :=
  match s with
  | String c r => if is_ws c then skip_ws r else s
  | EmptyString => EmptyString
  end.

Definition is_digit (c : ascii) : bool :=
  let n := nat_of_ascii c in (48 <=? n)%nat && (n <=? 57)%nat.

(** The longest prefix of digits, and what follows it. *)
Fixpoint digits (s : string) : string * string :=
  match s with
  | String c r =>
      if is_digit c then let (ds, r') := digits r in (String c ds, r')
      else (EmptyString, s)
  | EmptyString => (EmptyString, EmptyString)
  end.

Definition hex_value (c : ascii) : option nat :=
  let n := nat_of_ascii c in
  if (48 <=? n)%nat && (n <=? 57)%nat then Some (n - 48)
  else if (65 <=? n)%nat && (n <=? 70)%nat then Some (n - 55)
  else if (97 <=? n)%nat && (n <=? 102)%nat then Some (n - 87)
  else None.

(** The code unit that four hexadecimal digits spell. *)
Definition hex4 (a b c d : ascii) : option N :=
  match hex_value a, hex_value b, hex_value c, hex_value d with
  | Some x, Some y, Some z, Some w =>
      Some (N.of_nat (((x * 16 + y) * 16 + z) * 16 + w))
  | _, _, _, _ => None
  end.

Definition is_high_surrogate (n : N) : bool :=
  ((55296 <=? n) && (n <=? 56319))%N.

Definition is_low_surrogate (n : N) : bool :=
  ((56320 <=? n) && (n <=? 57343))%N.

Definition join_surrogates (hi lo : N) : N :=
  (65536 + (hi - 55296) * 1024 + (lo - 56320))%N.

(** A code point in the string model: the character of that number below
    256, the bytes of its UTF-8 form above. *)
Definition encode (n : N) : string :=
  let byte (k : N) := String (ascii_of_N k) EmptyString in
  if (n <? 256)%N then byte n
  else if (n <? 2048)%N then
    byte (192 + n / 64)%N ++ byte (128 + n mod 64)%N
  else if (n <? 65536)%N then
    byte (224 + n / 4096)%N ++ byte (128 + (n / 64) mod 64)%N
    ++ byte (128 + n mod 64)%N
  else
    byte (240 + n / 262144)%N ++ byte (128 + (n / 4096) mod 64)%N
    ++ byte (128 + (n / 64) mod 64)%N ++ byte (128 + n mod 64)%N.

Definition escape (c : ascii) : option ascii :=
  if Ascii.eqb c Str.dq_char then Some Str.dq_char
  else match c with
       | "\"%char => Some "\"%char
       | "/"%char => Some "/"%char
       | "b"%char => Some (ascii_of_nat 8)
       | "f"%char => Some (ascii_of_nat 12)
       | "n"%char => Some (ascii_of_nat 10)
       | "r"%char => Some (ascii_of_nat 13)
       | "t"%char => Some (ascii_of_nat 9)
       | _ => None
       end.

(** The text of a string literal after its opening quote, up to and
    including the closing quote. *)
Fixpoint string_body (s : string) : option (string * string) :=
  match s with
  | EmptyString => None
  | String c r =>
      if Ascii.eqb c Str.dq_char then Some (EmptyString, r)
      else if Ascii.eqb c "\"%char then
        match r with
        | String "u"%char (String h1 (String h2 (String h3 (String h4 r')))) =>
            match hex4 h1 h2 h3 h4 with
            | None => None
            | Some n =>
                let alone :=
                  match string_body r' with
                  | Some (t, rest) => Some (encode n ++ t, rest)
                  | None => None
                  end in
                match r' with
                | String "\"%char (String "u"%char
                    (String g1 (String g2 (String g3 (String g4 r''))))) =>
                    match hex4 g1 g2 g3 g4 with
                    | None => None
                    | Some m =>
                        if is_high_surrogate n && is_low_surrogate m then
                          match string_body r'' with
                          | Some (t, rest) =>
                              Some (encode (join_surrogates n m) ++ t, rest)
                          | None => None
                          end
                        else alone
                    end
                | _ => alone
                end
            end
        | String e r' =>
            match escape e, string_body r' with
            | Some x, Some (t, rest) => Some (String x t, rest)
            | _, _ => None
            end
        | EmptyString => None
        end
      else if (nat_of_ascii c <? 32)%nat then None
      else match string_body r with
           | Some (t, rest) => Some (String c t, rest)
           | None => None
           end
  end.

(** A number as the scanner reads it: an optional minus sign; a zero, or a
    non-zero digit and more digits; optionally a dot and digits; optionally
    an exponent mark, a sign and digits.  An optional part that is begun
    but not completed is left unread. *)
Definition number (s : string) : option (string * string) :=
  let '(sign, s0) :=
    match s with
    | String "-"%char r => ("-", r)
    | _ => (EmptyString, s)
    end in
  let int_part :=
    match s0 with
    | String "0"%char r => Some ("0", r)
    | String c _ => if is_digit c then Some (digits s0) else None
    | EmptyString => None
    end in
  match int_part with
  | None => None
  | Some (i, s1) =>
      let '(frac, s2) :=
        match s1 with
        | String "."%char r =>
            match digits r with
            | (EmptyString, _) => (EmptyString, s1)
            | (ds, r') => ("." ++ ds, r')
            end
        | _ => (EmptyString, s1)
        end in
      let '(ex, s3) :=
        match s2 with
        | String e r =>
            if Ascii.eqb e "e"%char || Ascii.eqb e "E"%char then
              let '(sg, r0) :=
                match r with
                | String "+"%char r1 => ("+", r1)
                | String "-"%char r1 => ("-", r1)
                | _ => (EmptyString, r)
                end in
              match digits r0 with
              | (EmptyString, _) => (EmptyString, s2)
              | (ds, r') => (String e (sg ++ ds), r')
              end
            else (EmptyString, s2)
        | EmptyString => (EmptyString, s2)
        end in
      Some (sign ++ i ++ frac ++ ex, s3)
  end.

(** [strip_prefix p s] is what follows [p] in [s]. *)
Fixpoint strip_prefix (p s : string) : option string :=
  match p, s with
  | EmptyString, _ => Some s
  | String a p', String b s' =>
      if Ascii.eqb a b then strip_prefix p' s' else None
  | String _ _, EmptyString => None
  end.

(** The number of digits of an integer literal, [None] for a literal with
    a fraction or an exponent ([float] converts those). *)
Definition integer_digits (lexeme : string) : option nat :=
  if Str.contains_char "."%char lexeme || Str.contains_char "e"%char lexeme
     || Str.contains_char "E"%char lexeme
  then None
  else match lexeme with
       | String "-"%char r => Some (String.length r)
       | _ => Some (String.length lexeme)
       end.

(** The conversion of a number literal: [int] refuses more than
    [int_max_str_digits] digits. *)
Definition convert_number (lexeme : string) : outcome json :=
  match integer_digits lexeme with
  | Some n =>
      if (int_max_str_digits <? n)%nat
      then Raise (ValueError Exceeds_int_digit_limit)
      else Ok (JNumber lexeme)
  | None => Ok (JNumber lexeme)
  end.

Definition constant (s : string) : outcome (json * string) :=
  match strip_prefix "null" s with
  | Some r => Ok (JNull, r)
  | None =>
  match strip_prefix "true" s with
  | Some r => Ok (JBool true, r)
  | None =>
  match strip_prefix "false" s with
  | Some r => Ok (JBool false, r)
  | None =>
  match number s with
  | Some (n, r) =>
      match convert_number n with
      | Ok v => Ok (v, r)
      | Raise e => Raise e
      end
  | None =>
  match strip_prefix "NaN" s with
  | Some r => Ok (JNumber "NaN", r)
  | None =>
  match strip_prefix "Infinity" s with
  | Some r => Ok (JNumber "Infinity", r)
  | None =>
  match strip_prefix "-Infinity" s with
  | Some r => Ok (JNumber "-Infinity", r)
  | None => Raise JSONDecodeError
  end end end end end end end.

(** One value at the head of [s].  [depth] is how many more lists and
    dicts may be entered: entering one with none left raises
    [RecursionError].  [fuel] bounds the number of calls, and [loads]
    supplies more than a text of that length can use. *)
Fixpoint value (depth fuel : nat) (s : string) : outcome (json * string) :=
  match fuel with
  | O => Raise JSONDecodeError
  | S fuel' =>
      match s with
      | EmptyString => Raise JSONDecodeError
      | String c r =>
          if Ascii.eqb c Str.dq_char then
            match string_body r with
            | Some (t, rest) => Ok (JString t, rest)
            | None => Raise JSONDecodeError
            end
          else if Ascii.eqb c "{"%char then
            match depth with
            | O => Raise RecursionError
            | S depth' =>
                match skip_ws r with
                | String "}"%char rest => Ok (JObject [], rest)
                | r' => members depth' fuel' [] r'
                end
            end
          else if Ascii.eqb c "["%char then
            match depth with
            | O => Raise RecursionError
            | S depth' =>
                match skip_ws r with
                | String "]"%char rest => Ok (JArray [], rest)
                | r' => elements depth' fuel' [] r'
                end
            end
          else constant s
      end
  end
with elements (depth fuel : nat) (acc : list json) (s : string)
  : outcome (json * string) :=
  match fuel with
  | O => Raise JSONDecodeError
  | S fuel' =>
      match value depth fuel' s with
      | Ok (v, r) =>
          match skip_ws r with
          | String "]"%char rest => Ok (JArray (rev (v :: acc)), rest)
          | String ","%char rest =>
              elements depth fuel' (v :: acc) (skip_ws rest)
          | _ => Raise JSONDecodeError
          end
      | Raise e => Raise e
      end
  end
with members (depth fuel : nat) (acc : dict) (s : string)
  : outcome (json * string) :=
  match fuel with
  | O => Raise JSONDecodeError
  | S fuel' =>
      match s with
      | String c r =>
          if Ascii.eqb c Str.dq_char then
            match string_body r with
            | Some (k, r1) =>
                match skip_ws r1 with
                | String ":"%char r2 =>
                    match value depth fuel' (skip_ws r2) with
                    | Ok (v, r3) =>
                        match skip_ws r3 with
                        | String "}"%char rest =>
                            Ok (JObject (dict_set k v acc), rest)
                        | String ","%char rest =>
                            members depth fuel' (dict_set k v acc)
                              (skip_ws rest)
                        | _ => Raise JSONDecodeError
                        end
                    | Raise e => Raise e
                    end
                | _ => Raise JSONDecodeError
                end
            | None => Raise JSONDecodeError
            end
          else Raise JSONDecodeError
      | EmptyString => Raise JSONDecodeError
      end
  end.

(** [json.loads(s)] under a given depth of nesting. *)
Definition loads_within (depth : nat) (s : string) : outcome json :=
  match value depth (S (S (2 * String.length s))) (skip_ws s) with
  | Ok (v, r) =>
      match skip_ws r with
      | EmptyString => Ok v
      | String _ _ => Raise JSONDecodeError
      end
  | Raise e => Raise e
  end.

(** [json.loads(s)] as the program calls it: every list or dict entered
    counts against the recursion limit like a frame. *)
Definition loads (s : string) : outcome json :=
  loads_within (recursion_limit - frames_in_use) s.

End Json.

(** ** The parsed page *)

Module Soup.

(** The tree BeautifulSoup builds: text, comments, and tags with their
    name, the tokens of their [class] attribute and their children.  Other
    attributes play no part in the searches of this program. *)
Inductive node : Type :=
| NavigableString (s : string)
| Comment (s : string)
| Tag (name : string) (class_ : list string) (contents : list node).

(** [tag.descendants]: every node below [n], in document order, each
    child followed by its own descendants. *)
Fixpoint descendants (n : node) : list node :=
  match n with
  | Tag _ _ cs => flat_map (fun c => c :: descendants c) cs
  | _ => []
  end.

(** The nodes of a sequence of siblings in document order. *)
Definition document_order (siblings : list node) : list node :=
  flat_map (fun c => c :: descendants c) siblings.

(** [tag.string]: the text of a node with a single line of descent. *)
Fixpoint tag_string (n : node) : option string :=
  match n with
  | NavigableString s => Some s
  | Comment s => Some s
  | Tag _ _ [c] => tag_string c
  | Tag _ _ _ => None
  end.

(** The strings [get_text] keeps: text proper, not comments. *)
Definition text_of (n : node) : list string :=
  match n with
  | NavigableString s => [s]
  | _ => []
  end.

(** [tag.get_text(separator=sep)] *)
Definition get_text (sep : string) (n : node) : string :=
  Str.join sep (flat_map text_of (descendants n)).

(** A tag whose name is [name]: the filter of [find_next(name)]. *)
Definition is_tag (name : string) (n : node) : bool :=
  match n with
  | Tag name' _ _ => String.eqb name' name
  | _ => false
  end.

(** A multi-valued attribute matches a string when one of its tokens is
    that string, or when the tokens joined by spaces are. *)
Definition class_matches (c : string) (tokens : list string) : bool :=
  existsb (fun t => String.eqb t c) tokens
  || String.eqb (Str.join " " tokens) c.

(** The filter of [find(name, class_=c, string=s)]: a tag of that name and
    class whose [.string] is exactly [s]. *)
Definition matches (name c s : string) (n : node) : bool :=
  match n with
  | Tag name' tokens _ =>
      String.eqb name' name && class_matches c tokens &&
      match tag_string n with
      | Some s' => String.eqb s' s
      | None => false
      end
  | _ => false
  end.

(** An element found in a document, with the nodes that come after it in
    document order (its own descendants first): [element.next_elements]. *)
Record located : Type := Located {
  element : node;
  next_elements : list node
}.

Fixpoint first_located (p : node -> bool) (l : list node) : option located :=
  match l with
  | [] => None
  | x :: r => if p x then Some (Located x r) else first_located p r
  end.

(** [soup.find(...)]: the first descendant that passes the filter. *)
Definition find (p : node -> bool) (soup : node) : option located :=
  first_located p (descendants soup).

(** [element.find_next(...)]: the first later node that passes it. *)
Definition find_next (p : node -> bool) (e : located) : option located :=
  first_located p (next_elements e).

End Soup.

(** ** The schema *)

Import Json.

(** [class Rule(BaseModel)] *)
Module Rule.

Inductive t : Type := Build {
  rule_id : string;
  rule_text : string;
  operator : option string;
  rules : option (list t)
}.

(** A field declared [str]: present and a string. *)
Definition str_field (k : string) (d : dict) : option string :=
  match dict_get k d with
  | Some (JString s) => Some s
  | _ => None
  end.

(** A field declared [Optional[str] = None]: absent, null or a string. *)
Definition optional_str_field (k : string) (d : dict) : option (option string) :=
  match dict_get k d with
  | None => Some None
  | Some JNull => Some None
  | Some (JString s) => Some (Some s)
  | Some _ => None
  end.

(** The validator keeps count of the references to a schema that are open
    while it descends, and refuses to open one more when
    [recursion_guard_limit] would be reached (pydantic-core's recursion
    guard). *)
Definition recursion_guard_limit : nat := 255.

(** The validation of the field [rules], declared
    [Optional[List["Rule"]] = None]: absent or null, or a list whose every
    entry passes [entry]. *)
Definition validate_children (entry : json -> option t) (v : option json)
  : option (option (list t)) :=
  match v with
  | None => Some None
  | Some JNull => Some None
  | Some (JArray l) =>
      match traverse entry l with
      | Some rs => Some (Some rs)
      | None => None
      end
  | Some _ => None
  end.

(** The validation of a candidate against the schema [Rule] when [budget]
    more references may be opened; [None] stands for [ValidationError].
    Every entry of [rules] is validated through a reference to [Rule].
    Keys that are not fields are ignored. *)
Fixpoint validate_within (budget : nat) (j : json) : option t :=
  match j with
  | JObject d =>
      match str_field "rule_id" d, str_field "rule_text" d,
            optional_str_field "operator" d,
            validate_children
              (fun c => match budget with
                        | O => None
                        | S budget' => validate_within budget' c
                        end)
              (dict_get "rules" d)
      with
      | Some i, Some x, Some o, Some rs => Some (Build i x o rs)
      | _, _, _, _ => None
      end
  | _ => None
  end.

(** A reference to [Rule] with [budget] references left, itself
    included. *)
Definition reference (budget : nat) (j : json) : option t :=
  match budget with
  | O => None
  | S budget' => validate_within budget' j
  end.

(** [Rule.model_validate(j)]: the candidate itself opens no reference. *)
Definition model_validate (j : json) : option t :=
  validate_within (recursion_guard_limit - 1) j.

Definition dump_optional_str (o : option string) : json :=
  match o with
  | Some s => JString s
  | None => JNull
  end.

(** The dict that spells out a rule: what [model_dump] builds for it. *)
Fixpoint dump (r : t) : json :=
  JObject
    [("rule_id", JString (rule_id r));
     ("rule_text", JString (rule_text r));
     ("operator", dump_optional_str (operator r));
     ("rules", match rules r with
               | Some rs => JArray (map dump rs)
               | None => JNull
               end)].

(** How many rules are nested below a rule: the number of references the
    validator and the serializer open on their way to its deepest
    descendant. *)
Fixpoint nesting (r : t) : nat :=
  match rules r with
  | Some rs => fold_right (fun c m => Nat.max (S (nesting c)) m) 0 rs
  | None => 0
  end.


End Rule.

(** [class Guideline(BaseModel)] *)
Module Guideline.

Record t : Type := Build {
  title : string;
  insurance_name : string;
  rules : Rule.t
}.

(** [Guideline.model_validate(j)]: the field [rules] is a reference to
    [Rule], the first one opened. *)
Definition model_validate (j : json) : option t :=
  match j with
  | JObject d =>
      match Rule.str_field "title" d, Rule.str_field "insurance_name" d,
            dict_get "rules" d with
      | Some a, Some b, Some r =>
          match Rule.reference (Rule.recursion_guard_limit - 1) r with
          | Some r' => Some (Build a b r')
          | None => None
          end
      | _, _, _ => None
      end
  | _ => None
  end.

(** The dict that spells out a guideline. *)
Definition dump (g : t) : json :=
  JObject
    [("title", JString (title g));
     ("insurance_name", JString (insurance_name g));
     ("rules", Rule.dump (rules g))].

(** [guideline.model_dump()]: the serializer has the same guard as the
    validator, and raises when the rule tree is nested too deep. *)
Definition model_dump (g : t) : outcome json :=
  if (S (Rule.nesting (rules g)) <? Rule.recursion_guard_limit)%nat
  then Ok (dump g)
  else Raise (ValueError Circular_reference_detected).

End Guideline.

(** ** The outside world and the pipeline monad *)

(** The names the specification gives to the failures. *)
Definition HeadingNotFound : exn := ValueError Policy_header_not_found.
Definition ContainerNotFound : exn := ValueError Ordered_list_not_found.
Definition MalformedResponse : exn :=
  ValueError (Error_processing_output JSONDecodeError).
Definition SchemaValidationError : exn :=
  ValueError (Error_processing_output ValidationError).

(** The declared taxonomy of failures. *)
Inductive declared_failure : exn -> Prop :=
| Declared_fetch what : declared_failure (External what)
| Declared_heading : declared_failure HeadingNotFound
| Declared_container : declared_failure ContainerNotFound
| Declared_malformed : declared_failure MalformedResponse
| Declared_schema : declared_failure SchemaValidationError.

(** What [main] writes to standard output. *)
Inductive output : Type :=
| Structured_JSON_Output (structured_json : json)
| An_error_occurred (e : exn).

(** The calls that leave the process. *)
Inductive event : Type :=
| HttpGet (url : string) (headers : list (string * string))
| ChatCompletion (model : string) (messages : list (string * string))
| Stdout (o : output).

Definition is_model_call (e : event) : bool :=
  match e with
  | ChatCompletion _ _ => true
  | _ => false
  end.

(** How many times the language model was called in a log. *)
Definition model_calls (log : list event) : nat :=
  List.length (filter is_model_call log).

(** A computation reads the log so far and returns a value or an
    exception, with the log extended by the calls it made: an exception
    does not undo a call. *)
Definition M (A : Type) : Type := list event -> outcome A * list event.

Definition ret {A : Type} (a : A) : M A := fun log => (Ok a, log).

Definition raise {A : Type} (e : exn) : M A := fun log => (Raise e, log).

Definition bind {A B : Type} (c : M A) (k : A -> M B) : M B :=
  fun log =>
    match c log with
    | (Ok a, log') => k a log'
    | (Raise e, log') => (Raise e, log')
    end.

(** [try: c except Exception as e: h e]: an exception outside the class
    [Exception] is not caught. *)
Definition try_except {A : Type} (c : M A) (h : exn -> M A) : M A :=
  fun log =>
    match c log with
    | (Ok a, log') => (Ok a, log')
    | (Raise e, log') =>
        if is_exception e then h e log' else (Raise e, log')
    end.

(** A pure step that may raise. *)
Definition lift {A : Type} (r : outcome A) : M A := fun log => (r, log).

(** A call to a collaborator: the call is logged, then its answer, which
    may depend on everything that happened before, is returned. *)
Definition call {A : Type} (e : event) (answer : list event -> outcome A) : M A :=
  fun log => (answer log, (log ++ [e])%list).

Definition print (o : output) : M unit :=
  fun log => (Ok tt, (log ++ [Stdout o])%list).

Declare Scope pipeline_scope.
Delimit Scope pipeline_scope with pipeline.
Notation "x <- c ;; k" := (bind c (fun x => k))
  (at level 61, c at next level, right associativity) : pipeline_scope.

(** The same sequencing for pure steps. *)
Definition and_then {A B : Type} (r : outcome A) (k : A -> outcome B) : outcome B :=
  match r with
  | Ok a => k a
  | Raise e => Raise e
  end.

Notation "'let*' x := r 'in' k" := (and_then r (fun x => k))
  (at level 61, x name, r at next level, right associativity) : pipeline_scope.

(** ** Python operations on parsed JSON *)

(** [data[k] = v] *)
Definition setitem (data : json) (k : string) (v : json) : outcome json :=
  match data with
  | JObject d => Ok (JObject (dict_set k v d))
  | _ => Raise TypeError
  end.

(** [data[k]] *)
Definition getitem (data : json) (k : string) : outcome json :=
  match data with
  | JObject d =>
      match dict_get k d with
      | Some v => Ok v
      | None => Raise KeyError
      end
  | _ => Raise TypeError
  end.

(** [k in data], which the program reaches with a dict only. *)
Definition contains (k : string) (data : json) : bool :=
  match data with
  | JObject d => dict_contains k d
  | _ => false
  end.

(** [isinstance(data, dict)] *)
Definition is_object (j : json) : bool :=
  match j with
  | JObject _ => true
  | _ => false
  end.

(** ** The program *)

Definition MODEL : string := "gpt-4o".

(** The [url] of [main]. *)
Definition url : string :=
  "https://www.aetna.com/cpb/medical/data/300_399/0369.html".

Definition headers : list (string * string) :=
  [("User-Agent",
    "Mozilla/5.0 (Windows NT 10.0; Win64; x64) " ++
    "AppleWebKit/537.36 (KHTML, like Gecko) " ++
    "Chrome/115.0.0.0 Safari/537.36")].

(** The marker of a fenced block. *)
Definition fence : string := "```".

Definition sentinel : string := "Medical Necessity".

(** The f-string of [extract_rules_with_openai]. *)
Definition prompt (text : string) : string :=
  Str.join Str.nl
    [ "";
      "        Act as an NLP expert. Extract the medical necessity guidelines from the text provided below";
      "        and convert them into a structured JSON object that conforms exactly to the following schema:";
      "";
      "        Schema:";
      "        {";
      "            " ++ Str.quote "title" ++ ": string,";
      "            " ++ Str.quote "insurance_name" ++ ": string,";
      "            " ++ Str.quote "rules" ++ ": {";
      "                " ++ Str.quote "rule_id" ++ ": string,";
      "                " ++ Str.quote "rule_text" ++ ": string,";
      "                " ++ Str.quote "operator" ++ ": string or null,";
      "                " ++ Str.quote "rules" ++ ": list of nested rules or null";
      "            }";
      "        }";
      "";
      "        The text to be referenced is:";
      "        " ++ text;
      "";
      "        Output only the JSON.";
      "    " ].

Definition messages (text : string) : list (string * string) :=
  [ ("system",
     "You are an NLP expert that extracts and transforms unstructured text into JSON.");
    ("user", prompt text) ].

(** Lines 113-114: a response that begins and ends with the fence marker
    loses its first and last lines. *)
Definition strip_fence (result : string) : string :=
  if Str.startswith fence result && Str.endswith fence result
  then Str.strip (Str.join Str.nl (Str.slice_1_m1 (Str.split Str.nl_char result)))
  else result.

(** The [except (json.JSONDecodeError, ValidationError)] clause. *)
Definition handler {A : Type} (r : outcome A) : outcome A :=
  match r with
  | Raise JSONDecodeError =>
      Raise (ValueError (Error_processing_output JSONDecodeError))
  | Raise ValidationError =>
      Raise (ValueError (Error_processing_output ValidationError))
  | _ => r
  end.

Local Open Scope pipeline_scope.

Section Pipeline.

(** [requests.get(url, headers=headers)] followed by [raise_for_status()]:
    the text of the response, or the exception either raises. *)
Variable requests_get : list event -> string -> outcome string.

(** [BeautifulSoup(text, 'html.parser')] *)
Variable BeautifulSoup : string -> Soup.node.

(** [client.chat.completions.create(...)] and the content of the message of
    its first choice, or the exception the client raises. *)
Variable chat_completions_create :
  list event -> string -> list (string * string) -> outcome string.

(** [json.loads]: the value read, or the exception the reader raises. *)
Variable json_loads : string -> outcome json.

(** Lines 54-64, on the parsed page. *)
Definition policy_text (soup : Soup.node) : outcome string :=
  match Soup.find (Soup.matches "h2" "policyHead" "Policy") soup with
  | Some header =>
      match Soup.find_next (Soup.is_tag "ol") header with
      | Some ol => Ok (Str.strip (Soup.get_text Str.nl (Soup.element ol)))
      | None => Raise (ValueError Ordered_list_not_found)
      end
  | None => Raise (ValueError Policy_header_not_found)
  end.

Definition fetch_aetna_guidelines (url : string) : M string :=
  response_text <- call (HttpGet url headers) (fun log => requests_get log url) ;;
  let soup := BeautifulSoup response_text in
  lift (policy_text soup).

(** Lines 116-127: the [try] block with its [except] clause. *)
Definition process_output (result guideline_title insurance_name : string)
  : outcome Guideline.t :=
  handler
    (match json_loads result with
     | Raise e => Raise e
     | Ok data =>
         let* data := setitem data "title" (JString guideline_title) in
         let* data := setitem data "insurance_name" (JString insurance_name) in
         let* data :=
           (if contains "rules" data then
              let* inner := getitem data "rules" in
              let* inner := setitem inner "rule_text" (JString sentinel) in
              setitem data "rules" inner
            else Ok data) in
         match Guideline.model_validate data with
         | Some guideline => Ok guideline
         | None => Raise ValidationError
         end
     end).

Definition extract_rules_with_openai
  (text guideline_title insurance_name : string) : M Guideline.t :=
  content <- call (ChatCompletion MODEL (messages text))
                  (fun log => chat_completions_create log MODEL (messages text)) ;;
  let result := Str.strip content in
  let result := strip_fence result in
  lift (process_output result guideline_title insurance_name).

Definition main : M unit :=
  try_except
    (extracted_text <- fetch_aetna_guidelines url ;;
     let guideline_title := "Chronic Fatigue Syndrome" in
     let insurance_name := "Aetna" in
     guideline <- extract_rules_with_openai extracted_text guideline_title insurance_name ;;
     structured_json <- lift (Guideline.model_dump guideline) ;;
     print (Structured_JSON_Output structured_json))
    (fun e => print (An_error_occurred e)).

End Pipeline.

Arguments policy_text soup : simpl never.

(** ** Notions the properties are stated with *)


(** A heading of the same kind as the anchor: an [h2] of class
    [policyHead], whatever its text. *)
Definition same_kind_heading (n : Soup.node) : bool :=
  match n with
  | Soup.Tag name tokens _ =>
      String.eqb name "h2" && Soup.class_matches "policyHead" tokens
  | _ => false
  end.

(** The nodes of a list that come before the first one passing [p]. *)
Fixpoint take_until {A : Type} (p : A -> bool) (l : list A) : list A :=
  match l with
  | [] => []
  | x :: r => if p x then [] else x :: take_until p r
  end.

(** The part of the page between the anchor and the next heading of the
    same kind. *)
Definition section_after (header : Soup.located) : list Soup.node :=
  take_until same_kind_heading (Soup.next_elements header).

(** "Extraction stops at the next heading": a page with the anchor and no
    ordered list in the section after it is refused. *)
Definition stops_at_next_heading (soup : Soup.node) : Prop :=
  forall header,
    Soup.find (Soup.matches "h2" "policyHead" "Policy") soup = Some header ->
    Soup.first_located (Soup.is_tag "ol") (section_after header) = None ->
    policy_text soup = Raise ContainerNotFound.

(** ** Pages, responses and collaborators to run the program on *)

Module Fixtures.

Definition document (contents : list Soup.node) : Soup.node :=
  Soup.Tag "[document]" [] contents.

Definition li (s : string) : Soup.node :=
  Soup.Tag "li" [] [Soup.NavigableString s].

Definition policy_heading : Soup.node :=
  Soup.Tag "h2" ["policyHead"] [Soup.NavigableString "Policy"].

Definition criteria : Soup.node :=
  Soup.Tag "ol" [] [li "Criterion A"; li "Criterion B"].

(** The heading followed by the list of two criteria. *)
Definition policy_page : Soup.node := document [policy_heading; criteria].

Definition criteria_text : string := "Criterion A" ++ Str.nl ++ "Criterion B".

(** The heading, a paragraph, a second heading of the same kind, and only
    then an ordered list. *)
Definition list_past_next_heading : Soup.node :=
  document
    [ policy_heading;
      Soup.Tag "p" [] [Soup.NavigableString "See the bulletin."];
      Soup.Tag "h2" ["policyHead"] [Soup.NavigableString "Background"];
      Soup.Tag "ol" [] [li "Reference 1"] ].

(** The heading and no ordered list at all. *)
Definition no_list_page : Soup.node :=
  document [policy_heading; Soup.Tag "p" [] [Soup.NavigableString "None."]].

(** A page without the heading. *)
Definition no_heading_page : Soup.node :=
  document [Soup.Tag "h2" [] [Soup.NavigableString "Policy"]; criteria].

Definition field (k v : string) : string := Str.quote k ++ ": " ++ v.

(** A minimal rule tree as the model might write it, with its own guesses
    for the title, the payer and the text of the root rule. *)
Definition minimal_response : string :=
  "{" ++ field "title" (Str.quote "A guess") ++ ", " ++
  field "insurance_name" (Str.quote "Another guess") ++ ", " ++
  field "rules"
    ("{" ++ field "rule_id" (Str.quote "1") ++ ", " ++
     field "rule_text" (Str.quote "Criteria") ++ ", " ++
     field "operator" (Str.quote "AND") ++ ", " ++
     field "rules"
       ("[{" ++ field "rule_id" (Str.quote "1.1") ++ ", " ++
        field "rule_text" (Str.quote "Criterion A") ++ "}]") ++ "}") ++ "}".

Definition fenced (lang payload : string) : string :=
  fence ++ lang ++ Str.nl ++ payload ++ Str.nl ++ fence.

Definition minimal_guideline : Guideline.t :=
  Guideline.Build "Chronic Fatigue Syndrome" "Aetna"
    (Rule.Build "1" sentinel (Some "AND")
       (Some [Rule.Build "1.1" "Criterion A" None None])).


(** A transport that always answers with the same text, a tree builder that
    always builds the same page, a model that always gives the same
    response. *)
Definition serve (html : string) : list event -> string -> outcome string :=
  fun _ _ => Ok html.

Definition build (page : Soup.node) : string -> Soup.node := fun _ => page.

Definition respond (content : string)
  : list event -> string -> list (string * string) -> outcome string :=
  fun _ _ _ => Ok content.

End Fixtures.

(** ** Further notions and cases *)

(** A text made of whitespace only, as [str.strip] sees whitespace. *)
Fixpoint all_space (s : string) : bool :=
  match s with
  | EmptyString => true
  | String c r => Str.isspace c && all_space r
  end.

(** A text that does not begin with whitespace. *)
Definition starts_clean (s : string) : bool :=
  match s with
  | EmptyString => true
  | String c _ => negb (Str.isspace c)
  end.

(** The four fields of [Rule]. *)
Definition rule_fields : list string :=
  ["rule_id"; "rule_text"; "operator"; "rules"].

(** How the [try] statement of [main] ends, from what its body came to:
    a dumped guideline is printed, an exception of class [Exception] is
    printed, any other exception leaves [main]. *)
Definition settle (r : outcome json) (log : list event)
  : outcome unit * list event :=
  match r with
  | Ok structured_json =>
      (Ok tt, (log ++ [Stdout (Structured_JSON_Output structured_json)])%list)
  | Raise e =>
      if is_exception e
      then (Ok tt, (log ++ [Stdout (An_error_occurred e)])%list)
      else (Raise e, log)
  end.

(** "Whatever is not JSON is reported as malformed": every response on
    which the reader returns no value ends in the wrapped decode error. *)
Definition unparseable_always_wrapped (json_loads : string -> outcome json)
  : Prop :=
  forall (content text title payer : string) (log : list event),
    (forall v, json_loads (strip_fence (Str.strip content)) <> Ok v) ->
    extract_rules_with_openai (Fixtures.respond content) json_loads
      text title payer log
    = (Raise MalformedResponse,
       (log ++ [ChatCompletion MODEL (messages text)])%list).


(** [s * n] *)
Fixpoint replicate (n : nat) (s : string) : string :=
  match n with
  | O => EmptyString
  | S n' => s ++ replicate n' s
  end.

Module Cases.

(** A thousand and one opening brackets. *)
Definition deep_brackets : string := replicate 1001 "[".

(** A transport interrupted from the keyboard. *)
Definition interrupted : list event -> string -> outcome string :=
  fun _ _ => Raise (Interrupt "KeyboardInterrupt").

(** The heading followed by an ordered list without any text. *)
Definition empty_list_page : Soup.node :=
  Fixtures.document
    [Fixtures.policy_heading;
     Soup.Tag "ol" [] [Soup.Tag "li" [] [Soup.NavigableString "  "]]].

(** A fenced response followed by a remark of the model. *)
Definition fenced_then_prose : string :=
  Fixtures.fenced "json" Fixtures.minimal_response ++ Str.nl ++ "Hope this helps.".

(** A fenced response written on one line. *)
Definition fenced_on_one_line : string := fence ++ "{}" ++ fence.

(** A response whose root rule has no [rule_text]. *)
Definition root_without_text : string :=
  "{" ++ Fixtures.field "rules"
           ("{" ++ Fixtures.field "rule_id" (Str.quote "1") ++ "}") ++ "}".

(** A response without the key [rules], and one whose [rules] is null. *)
Definition without_rules : string :=
  "{" ++ Fixtures.field "title" (Str.quote "A guess") ++ "}".

Definition null_rules : string := "{" ++ Fixtures.field "rules" "null" ++ "}".

(** A transport that fails, and a model client that fails. *)
Definition unreachable : list event -> string -> outcome string :=
  fun _ _ => Raise (External "requests.exceptions.HTTPError").

Definition unavailable
  : list event -> string -> list (string * string) -> outcome string :=
  fun _ _ _ => Raise (External "openai.APIConnectionError").

End Cases.

(** * Properties *)

(** ** Strings *)

Module StrFacts.
Import Str.

Lemma append_assoc (a b c : string) : (a ++ b) ++ c = a ++ (b ++ c).
Proof. induction a as [|x a IH]; simpl; [reflexivity | now rewrite IH]. Qed.

Lemma append_nonempty (a b : string) : b <> "" -> a ++ b <> "".
Proof. destruct a; simpl; [trivial | discriminate]. Qed.

Lemma rstrip_cons (c : ascii) (r : string) :
  rstrip r <> "" -> rstrip (String c r) = String c (rstrip r).
Proof.
  intros H. simpl. destruct (rstrip r); [contradiction | reflexivity].
Qed.

(** Text that ends in a block with nothing to trim has nothing to trim. *)
Lemma rstrip_append (x s : string) :
  s <> "" -> rstrip s = s -> rstrip (x ++ s) = x ++ s.
Proof.
  intros Hne Hs. induction x as [|c x IH]; simpl append; [exact Hs|].
  rewrite rstrip_cons; rewrite IH; [reflexivity | now apply append_nonempty].
Qed.

Lemma endswith_refl (p : string) : endswith p p = true.
Proof. destruct p; simpl; [reflexivity|]. now rewrite Ascii.eqb_refl, String.eqb_refl. Qed.

Lemma endswith_append (x p : string) : endswith p (x ++ p) = true.
Proof.
  induction x as [|c x IH]; simpl append; [apply endswith_refl|].
  simpl. rewrite IH. apply orb_true_r.
Qed.

Lemma split_nonempty (sep : ascii) (s : string) : split sep s <> [].
Proof.
  destruct s as [|c r]; simpl; [discriminate|].
  destruct (Ascii.eqb c sep); [discriminate|].
  destruct (split sep r); discriminate.
Qed.

(** A text without the separator is one piece. *)
Lemma split_none (sep : ascii) (s : string) :
  contains_char sep s = false -> split sep s = [s].
Proof.
  induction s as [|c r IH]; simpl; [reflexivity|].
  intros H. apply orb_false_iff in H as [Hc Hr].
  rewrite Hc, (IH Hr). reflexivity.
Qed.

(** The first piece ends at the first separator. *)
Lemma split_first (sep : ascii) (a s : string) :
  contains_char sep a = false ->
  split sep (a ++ String sep s) = a :: split sep s.
Proof.
  induction a as [|c a IH]; simpl.
  - intros _. now rewrite Ascii.eqb_refl.
  - intros H. apply orb_false_iff in H as [Hc Ha].
    rewrite Hc, (IH Ha). reflexivity.
Qed.

(** The last piece starts after the last separator. *)
Lemma split_last (sep : ascii) (s b : string) :
  contains_char sep b = false ->
  split sep (s ++ String sep b) = (split sep s ++ [b])%list.
Proof.
  intros Hb. induction s as [|c s IH]; simpl.
  - now rewrite Ascii.eqb_refl, (split_none _ _ Hb).
  - rewrite IH. destruct (Ascii.eqb c sep); [reflexivity|].
    pose proof (split_nonempty sep s) as Hne.
    destruct (split sep s); [contradiction | reflexivity].
Qed.

(** Joining the pieces with the separator gives the text back. *)
Lemma join_split (sep : ascii) (s : string) :
  join (String sep "") (split sep s) = s.
Proof.
  unfold join. induction s as [|c r IH]; simpl; [reflexivity|].
  pose proof (split_nonempty sep r) as Hne.
  destruct (Ascii.eqb c sep) eqn:Hc.
  - apply Ascii.eqb_eq in Hc. subst c.
    destruct (split sep r) as [|h t]; [contradiction|].
    simpl in IH |- *. now rewrite IH.
  - destruct (split sep r) as [|h t]; [contradiction|].
    destruct t; simpl in IH |- *; now rewrite IH.
Qed.

Lemma slice_1_m1_spec {A : Type} (a b : A) (l : list A) :
  slice_1_m1 (a :: l ++ [b])%list = l.
Proof. unfold slice_1_m1. simpl tl. apply removelast_last. Qed.

End StrFacts.

(** ** Fenced responses *)

Module FenceFacts.
Import Str StrFacts Fixtures.

Lemma fence_line_no_newline (lang : string) :
  contains_char nl_char lang = false ->
  contains_char nl_char (fence ++ lang) = false.
Proof. intros H. simpl. exact H. Qed.

(** A fenced response has nothing to trim: it begins and ends with a
    backquote. *)
Lemma strip_fenced (lang payload : string) :
  strip (fenced lang payload) = fenced lang payload.
Proof.
  unfold strip, fenced.
  replace (lstrip (fence ++ lang ++ nl ++ payload ++ nl ++ fence))
    with (fence ++ lang ++ nl ++ payload ++ nl ++ fence) by reflexivity.
  replace (fence ++ lang ++ nl ++ payload ++ nl ++ fence)
    with ((fence ++ lang ++ nl ++ payload ++ nl) ++ fence)
    by (now rewrite !append_assoc).
  apply rstrip_append; [discriminate | reflexivity].
Qed.

Lemma fenced_is_fenced (lang payload : string) :
  startswith fence (fenced lang payload) && endswith fence (fenced lang payload)
  = true.
Proof.
  apply andb_true_intro. split; [reflexivity|].
  unfold fenced.
  replace (fence ++ lang ++ nl ++ payload ++ nl ++ fence)
    with ((fence ++ lang ++ nl ++ payload ++ nl) ++ fence)
    by (now rewrite !append_assoc).
  apply endswith_append.
Qed.

(** The lines of a fenced response: the opening fence line, the lines of
    the payload, the closing fence. *)
Lemma split_fenced (lang payload : string) :
  contains_char nl_char lang = false ->
  split nl_char (fenced lang payload)
  = (fence ++ lang) :: (split nl_char payload ++ [fence])%list.
Proof.
  intros H. unfold fenced.
  replace (fence ++ lang ++ nl ++ payload ++ nl ++ fence)
    with ((fence ++ lang) ++ String nl_char (payload ++ String nl_char fence))
    by (now rewrite !append_assoc).
  rewrite split_first by now apply fence_line_no_newline.
  rewrite split_last by reflexivity. reflexivity.
Qed.

(** Removing the fence of a fenced response leaves the trimmed payload. *)
Lemma strip_fence_fenced (lang payload : string) :
  contains_char nl_char lang = false ->
  strip_fence (strip (fenced lang payload)) = strip payload.
Proof.
  intros H. rewrite strip_fenced. unfold strip_fence.
  rewrite fenced_is_fenced, (split_fenced _ _ H), slice_1_m1_spec.
  unfold nl. now rewrite (join_split nl_char payload).
Qed.

(** A response that does not begin with the marker is left alone. *)
Lemma strip_fence_unfenced (s : string) :
  startswith fence s = false -> strip_fence s = s.
Proof. intros H. unfold strip_fence. now rewrite H. Qed.

(** The reference reader refuses a text whose first character, after the
    JSON whitespace, is a backquote or another kind of space. *)
Lemma value_refuses (c : ascii) (r : string) (depth f : nat) :
  Json.is_ws c = false ->
  isspace c = true \/ c = "`"%char ->
  Json.value depth (S f) (String c r) = Raise JSONDecodeError.
Proof.
  intros Hws [Hsp | He].
  - destruct c as [[] [] [] [] [] [] [] []];
      vm_compute in Hws, Hsp; try discriminate; reflexivity.
  - subst c. reflexivity.
Qed.

Lemma is_ws_isspace (c : ascii) : Json.is_ws c = true -> isspace c = true.
Proof.
  destruct c as [[] [] [] [] [] [] [] []]; vm_compute; intros H;
    try discriminate; reflexivity.
Qed.

Lemma value_after_lstrip (s r : string) (depth f : nat) :
  lstrip s = String "`"%char r ->
  Json.value depth (S f) (Json.skip_ws s) = Raise JSONDecodeError.
Proof.
  induction s as [|c s IH]; [discriminate|].
  intros H. cbn [lstrip] in H. cbn [Json.skip_ws].
  destruct (Json.is_ws c) eqn:Hws.
  - rewrite (is_ws_isspace _ Hws) in H. auto.
  - apply value_refuses; [assumption|].
    destruct (isspace c); [now left | right; congruence].
Qed.

Lemma rstrip_head (s : string) (c : ascii) (r : string) :
  rstrip s = String c r -> exists r', s = String c r'.
Proof.
  destruct s as [|x s]; [discriminate|]. simpl.
  destruct (rstrip s).
  - destruct (isspace x); [discriminate|]. intros H. injection H as -> _. eauto.
  - intros H. injection H as -> _. eauto.
Qed.

(** No JSON text begins with a fence marker, trimmed or not. *)
Lemma json_payload_not_fenced (payload : string) (v : json) :
  Json.loads payload = Ok v -> startswith fence (strip payload) = false.
Proof.
  intros Hv. destruct (startswith fence (strip payload)) eqn:Hf; [|reflexivity].
  exfalso. unfold strip in Hf.
  destruct (rstrip (lstrip payload)) as [|c r] eqn:Hr; [discriminate|].
  unfold fence in Hf. cbn [startswith] in Hf. apply andb_prop in Hf as [Hc _].
  apply Ascii.eqb_eq in Hc. subst c.
  destruct (rstrip_head _ _ _ Hr) as [r' Hl].
  unfold Json.loads, Json.loads_within in Hv.
  rewrite (value_after_lstrip _ _ _ _ Hl) in Hv. discriminate.
Qed.

End FenceFacts.

(** ** Dicts *)

Module DictFacts.

Lemma dict_get_set_same (k : string) (v : json) (d : dict) :
  dict_get k (dict_set k v d) = Some v.
Proof.
  induction d as [|[k' v'] d IH]; simpl.
  - now rewrite String.eqb_refl.
  - destruct (String.eqb k' k) eqn:E; simpl.
    + now rewrite String.eqb_refl.
    + now rewrite E.
Qed.

Lemma dict_get_set_other (k k' : string) (v : json) (d : dict) :
  k' <> k -> dict_get k' (dict_set k v d) = dict_get k' d.
Proof.
  intros Hne. induction d as [|[k0 v0] d IH]; simpl.
  - apply String.eqb_neq in Hne. now rewrite String.eqb_sym, Hne.
  - destruct (String.eqb k0 k) eqn:E; simpl.
    + apply String.eqb_eq in E. subst k0.
      apply String.eqb_neq in Hne. now rewrite String.eqb_sym, Hne.
    + now rewrite IH.
Qed.

Lemma traverse_Forall2 {A B : Type} (f : A -> option B) (l : list A) (rs : list B) :
  traverse f l = Some rs -> Forall2 (fun a b => f a = Some b) l rs.
Proof.
  revert rs. induction l as [|a l IH]; simpl; intros rs H.
  - injection H as <-. constructor.
  - destruct (f a) as [b|] eqn:Ea; [|discriminate].
    destruct (traverse f l) as [bs|]; [|discriminate].
    injection H as <-. constructor; auto.
Qed.

Lemma traverse_refuses {A B : Type} (f : A -> option B) (l : list A) (a : A) :
  In a l -> f a = None -> traverse f l = None.
Proof.
  intros Hin Ha. induction l as [|x l IH]; [contradiction|].
  simpl. destruct Hin as [-> | Hin].
  - now rewrite Ha.
  - rewrite (IH Hin). now destruct (f x).
Qed.

Lemma traverse_map {A B : Type} (f : A -> option B) (g : B -> A) (rs : list B) :
  Forall (fun r => f (g r) = Some r) rs -> traverse f (map g rs) = Some rs.
Proof.
  induction 1 as [|r rs Hr _ IH]; simpl; [reflexivity|].
  now rewrite Hr, IH.
Qed.

End DictFacts.

(** ** The schema *)

Module SchemaFacts.
Import DictFacts.

Lemma traverse_of_Forall2 {A B : Type} (f : A -> option B) (l : list A)
      (rs : list B) :
  Forall2 (fun a b => f a = Some b) l rs -> traverse f l = Some rs.
Proof.
  induction 1 as [|a b l rs Hab _ IH]; simpl; [reflexivity|].
  now rewrite Hab, IH.
Qed.

(** The validation of a dict, field by field. *)
Lemma validate_within_dict (budget : nat) (d : dict) :
  Rule.validate_within budget (JObject d)
  = match Rule.str_field "rule_id" d, Rule.str_field "rule_text" d,
          Rule.optional_str_field "operator" d,
          Rule.validate_children (Rule.reference budget) (dict_get "rules" d)
    with
    | Some i, Some x, Some o, Some rs => Some (Rule.Build i x o rs)
    | _, _, _, _ => None
    end.
Proof. destruct budget; reflexivity. Qed.

Lemma rule_validate_dict (d : dict) :
  Rule.model_validate (JObject d)
  = match Rule.str_field "rule_id" d, Rule.str_field "rule_text" d,
          Rule.optional_str_field "operator" d,
          Rule.validate_children
            (Rule.reference (Rule.recursion_guard_limit - 1))
            (dict_get "rules" d)
    with
    | Some i, Some x, Some o, Some rs => Some (Rule.Build i x o rs)
    | _, _, _, _ => None
    end.
Proof. apply validate_within_dict. Qed.

Lemma str_field_get (k : string) (d : dict) (s : string) :
  Rule.str_field k d = Some s <-> dict_get k d = Some (JString s).
Proof.
  unfold Rule.str_field. split.
  - destruct (dict_get k d) as [[]|]; try discriminate. now intros [= ->].
  - now intros ->.
Qed.

(** What an accepted rule says about the dict it came from. *)
Lemma validate_within_fields (budget : nat) (d : dict) (r : Rule.t) :
  Rule.validate_within budget (JObject d) = Some r ->
  dict_get "rule_id" d = Some (JString (Rule.rule_id r)) /\
  dict_get "rule_text" d = Some (JString (Rule.rule_text r)) /\
  Rule.optional_str_field "operator" d = Some (Rule.operator r) /\
  Rule.validate_children (Rule.reference budget) (dict_get "rules" d)
  = Some (Rule.rules r).
Proof.
  rewrite validate_within_dict.
  destruct (Rule.str_field "rule_id" d) as [i|] eqn:Ei; [|discriminate].
  destruct (Rule.str_field "rule_text" d) as [x|] eqn:Ex; [|discriminate].
  destruct (Rule.optional_str_field "operator" d) as [o|]; [|discriminate].
  destruct (Rule.validate_children _ (dict_get "rules" d)) as [rs|];
    [|discriminate].
  intros [= <-]. simpl. apply str_field_get in Ei, Ex. auto.
Qed.

(** What an accepted guideline says about the dict it came from. *)
Lemma guideline_validate_fields (d : dict) (g : Guideline.t) :
  Guideline.model_validate (JObject d) = Some g ->
  dict_get "title" d = Some (JString (Guideline.title g)) /\
  dict_get "insurance_name" d = Some (JString (Guideline.insurance_name g)) /\
  exists j, dict_get "rules" d = Some j /\
            Rule.reference (Rule.recursion_guard_limit - 1) j
            = Some (Guideline.rules g).
Proof.
  unfold Guideline.model_validate.
  destruct (Rule.str_field "title" d) as [a|] eqn:Ea; [|discriminate].
  destruct (Rule.str_field "insurance_name" d) as [b|] eqn:Eb; [|discriminate].
  destruct (dict_get "rules" d) as [j|]; [|discriminate].
  destruct (Rule.reference _ j) as [r|] eqn:Er; [|discriminate].
  intros [= <-]. simpl. apply str_field_get in Ea, Eb. eauto.
Qed.

(** Induction on rule trees, with the hypothesis on every child. *)
Lemma rule_induction (P : Rule.t -> Prop) :
  (forall i x o, P (Rule.Build i x o None)) ->
  (forall i x o rs, Forall P rs -> P (Rule.Build i x o (Some rs))) ->
  forall r, P r.
Proof.
  intros Hleaf Hnode. fix IH 1. intros [i x o [rs|]].
  - apply Hnode. induction rs as [|c rs IHrs]; constructor.
    + apply IH.
    + exact IHrs.
  - apply Hleaf.
Qed.


(** The nesting of a rule with children, child by child. *)
Lemma nesting_children_le (rs : list Rule.t) (m : nat) :
  fold_right (fun c k => Nat.max (S (Rule.nesting c)) k) 0 rs <= m
  <-> Forall (fun c => S (Rule.nesting c) <= m) rs.
Proof.
  induction rs as [|c rs IH]; cbn [fold_right].
  - split; [constructor | lia].
  - split.
    + intros H. constructor; [lia | apply IH; lia].
    + intros H. inversion H as [|? ? Hc Hrs]; subst.
      apply IH in Hrs. lia.
Qed.

Lemma nesting_children_gt (rs : list Rule.t) (m : nat) :
  m < fold_right (fun c k => Nat.max (S (Rule.nesting c)) k) 0 rs ->
  exists c, In c rs /\ m < S (Rule.nesting c).
Proof.
  induction rs as [|c rs IH]; cbn [fold_right In]; [lia|]. intros H.
  destruct (Nat.le_gt_cases (S (Rule.nesting c)) m) as [Hle | Hgt].
  - destruct IH as (c' & Hin & Hc'); [lia | eauto].
  - eauto.
Qed.

(** What accepted children say about the field they came from. *)
Lemma validate_children_inv (entry : json -> option Rule.t) (v : option json)
      (rs : option (list Rule.t)) :
  Rule.validate_children entry v = Some rs ->
  (rs = None /\ (v = None \/ v = Some JNull)) \/
  (exists l rs', v = Some (JArray l) /\ rs = Some rs' /\
                 Forall2 (fun c rc => entry c = Some rc) l rs').
Proof.
  unfold Rule.validate_children.
  destruct v as [[| | | |l|]|]; try discriminate.
  - intros [= <-]. left. auto.
  - destruct (traverse entry l) as [rs'|] eqn:Et; [|discriminate].
    intros [= <-]. right. exists l, rs'.
    repeat split. now apply traverse_Forall2.
  - intros [= <-]. left. auto.
Qed.

(** An accepted rule is nested no deeper than the budget. *)
Lemma validated_nesting (budget : nat) :
  forall j r, Rule.validate_within budget j = Some r -> Rule.nesting r <= budget.
Proof.
  induction budget as [|b IH]; intros j r H;
    (destruct j as [| | | | |d]; [discriminate ..|]);
    apply validate_within_fields in H as (_ & _ & _ & Hc);
    destruct r as [i x o rs]; cbn [Rule.rules] in Hc;
    cbn [Rule.nesting Rule.rules];
    apply validate_children_inv in Hc
      as [[-> _] | (l & rs' & _ & -> & Hl)]; try lia;
    apply nesting_children_le.
  - destruct Hl; [constructor | discriminate].
  - induction Hl as [|c rc l rs' Hc _ IHl]; constructor; [|exact IHl].
    cbn [Rule.reference] in Hc. apply IH in Hc. lia.
Qed.

(** An accepted rule is accepted under every budget that covers its
    nesting. *)
Lemma validated_within_any (budget : nat) :
  forall j r, Rule.validate_within budget j = Some r ->
  forall budget', Rule.nesting r <= budget' ->
  Rule.validate_within budget' j = Some r.
Proof.
  induction budget as [|b IH]; intros j r H budget' Hn;
    (destruct j as [| | | | |d]; [discriminate ..|]);
    pose proof (validate_within_fields _ _ _ H) as (Hi & Hx & Ho & Hc);
    rewrite validate_within_dict;
    apply str_field_get in Hi, Hx; rewrite Hi, Hx, Ho;
    destruct r as [i x o rs];
    cbn [Rule.rule_id Rule.rule_text Rule.operator Rule.rules] in *;
    cbn [Rule.nesting Rule.rules] in Hn;
    apply validate_children_inv in Hc
      as [[-> [-> | ->]] | (l & rs' & -> & -> & Hl)]; try reflexivity;
    apply nesting_children_le in Hn;
    unfold Rule.validate_children.
  - destruct Hl; [reflexivity | discriminate].
  - assert (Hl' : Forall2 (fun c rc => Rule.reference budget' c = Some rc) l rs').
    { clear H. induction Hl as [|c rc l rs' Hc _ IHl]; constructor.
      - inversion Hn as [|? ? Hrc _]; subst.
        destruct budget' as [|b']; [lia|].
        cbn [Rule.reference] in Hc |- *. apply (IH _ _ Hc). lia.
      - apply IHl. now inversion Hn. }
    now rewrite (traverse_of_Forall2 _ _ _ Hl').
Qed.

(** The dict of a rule is accepted when the budget covers its nesting. *)
Lemma validate_dump (r : Rule.t) :
  forall budget, Rule.nesting r <= budget ->
  Rule.validate_within budget (Rule.dump r) = Some r.
Proof.
  induction r as [i x o | i x o rs IH] using rule_induction; intros budget Hn.
  - destruct budget, o; reflexivity.
  - cbn [Rule.nesting Rule.rules] in Hn. apply nesting_children_le in Hn.
    cbn [Rule.dump Rule.rule_id Rule.rule_text Rule.operator Rule.rules].
    rewrite validate_within_dict.
    replace (dict_get "rules" _) with (Some (JArray (map Rule.dump rs)))
      by reflexivity.
    unfold Rule.validate_children. rewrite (traverse_map _ Rule.dump rs).
    + destruct o; reflexivity.
    + clear i x o. induction IH as [|c rs Hc _ IHrs]; constructor.
      * inversion Hn as [|? ? Hle _]; subst.
        destruct budget as [|b]; [lia|]. cbn [Rule.reference].
        apply Hc. lia.
      * apply IHrs. now inversion Hn.
Qed.

(** The dict of a rule is refused when it is nested deeper than the
    budget. *)
Lemma dump_refused (r : Rule.t) :
  forall budget, budget < Rule.nesting r ->
  Rule.validate_within budget (Rule.dump r) = None.
Proof.
  induction r as [i x o | i x o rs IH] using rule_induction; intros budget Hn.
  - cbn in Hn. lia.
  - cbn [Rule.nesting Rule.rules] in Hn.
    apply nesting_children_gt in Hn as (c & Hin & Hc).
    cbn [Rule.dump Rule.rule_id Rule.rule_text Rule.operator Rule.rules].
    rewrite validate_within_dict.
    replace (dict_get "rules" _) with (Some (JArray (map Rule.dump rs)))
      by reflexivity.
    unfold Rule.validate_children.
    rewrite (traverse_refuses _ (map Rule.dump rs) (Rule.dump c)).
    + destruct o; reflexivity.
    + now apply in_map.
    + destruct budget as [|b]; [reflexivity|]. cbn [Rule.reference].
      rewrite Forall_forall in IH. apply (IH c Hin). lia.
Qed.


End SchemaFacts.




(** ** The transformer *)

Module TransformFacts.
Import DictFacts SchemaFacts.

(** One run of the transformer: the call is logged whatever happens, and
    the outcome is that of the post-processing of the response. *)
Lemma extract_run chat json_loads (text title payer : string) (log : list event) :
  extract_rules_with_openai chat json_loads text title payer log
  = (match chat log MODEL (messages text) with
     | Ok content =>
         process_output json_loads (strip_fence (Str.strip content)) title payer
     | Raise e => Raise e
     end,
     (log ++ [ChatCompletion MODEL (messages text)])%list).
Proof.
  unfold extract_rules_with_openai, bind, call, lift.
  now destruct (chat log MODEL (messages text)).
Qed.

Lemma process_output_undecodable json_loads (result title payer : string) :
  json_loads result = Raise JSONDecodeError ->
  process_output json_loads result title payer = Raise MalformedResponse.
Proof. intros H. unfold process_output. now rewrite H. Qed.

(** What the [except] clause does with an exception of the reader. *)
Lemma process_output_reader_raises json_loads (result title payer : string)
      (e : exn) :
  json_loads result = Raise e ->
  process_output json_loads result title payer = handler (Raise e).
Proof. intros H. unfold process_output. now rewrite H. Qed.

Lemma handler_passes {A : Type} (e : exn) :
  e <> JSONDecodeError -> e <> ValidationError ->
  handler (A := A) (Raise e) = Raise e.
Proof. intros H1 H2. destruct e; try reflexivity; contradiction. Qed.

Lemma process_output_non_object json_loads (result title payer : string) (data : json) :
  json_loads result = Ok data ->
  is_object data = false ->
  process_output json_loads result title payer = Raise TypeError.
Proof.
  intros H Hd. unfold process_output. rewrite H.
  destruct data; try reflexivity. discriminate.
Qed.

Lemma process_output_ok json_loads (result title payer : string) (g : Guideline.t) :
  process_output json_loads result title payer = Ok g ->
  Guideline.title g = title /\
  Guideline.insurance_name g = payer /\
  Rule.rule_text (Guideline.rules g) = sentinel.
Proof.
  unfold process_output.
  destruct (json_loads result) as [data|e]; [|destruct e; discriminate].
  destruct data as [| | | | |d]; try discriminate.
  cbn [setitem and_then].
  set (d2 := dict_set "insurance_name" (JString payer)
               (dict_set "title" (JString title) d)).
  unfold contains, dict_contains.
  destruct (dict_get "rules" d2) as [inner|] eqn:Hr.
  - cbn [getitem]. rewrite Hr. cbn [and_then].
    destruct inner as [| | | | |di]; try discriminate.
    cbn [setitem and_then].
    set (d3 := dict_set "rules" _ d2).
    destruct (Guideline.model_validate (JObject d3)) as [g'|] eqn:Hv;
      [|discriminate].
    cbn [handler]. intros [= <-].
    apply guideline_validate_fields in Hv as (Ht & Hi & j & Hj & Hrv).
    subst d3 d2.
    rewrite dict_get_set_other, dict_get_set_other, dict_get_set_same in Ht
      by discriminate.
    rewrite dict_get_set_other, dict_get_set_same in Hi by discriminate.
    rewrite dict_get_set_same in Hj.
    injection Ht as Ht. injection Hi as Hi. injection Hj as <-.
    change (Rule.reference (Rule.recursion_guard_limit - 1))
      with (Rule.validate_within 253) in Hrv.
    apply validate_within_fields in Hrv as (_ & Hx & _).
    rewrite dict_get_set_same in Hx. injection Hx as Hx. auto.
  - cbn [and_then].
    destruct (Guideline.model_validate (JObject d2)) as [g'|] eqn:Hv;
      [|discriminate].
    apply guideline_validate_fields in Hv as (_ & _ & j & Hj & _).
    congruence.
Qed.

Lemma model_calls_snoc (log : list event) (model : string) msgs :
  model_calls (log ++ [ChatCompletion model msgs]) = S (model_calls log).
Proof.
  unfold model_calls. rewrite filter_app, length_app. simpl. lia.
Qed.

Lemma model_calls_other (log : list event) (e : event) :
  is_model_call e = false -> model_calls (log ++ [e]) = model_calls log.
Proof.
  intros H. unfold model_calls. rewrite filter_app, length_app. simpl.
  rewrite H. simpl. lia.
Qed.

End TransformFacts.

(** C1. Whenever the transformer returns a guideline, its title is the
    title the caller supplied, its insurance name is the payer the caller
    supplied, and the text of its root rule is "Medical Necessity",
    whatever the model wrote in those places. *)
Theorem normalization_invariants :
  forall chat json_loads (text title payer : string) (log log' : list event)
         (g : Guideline.t),
    extract_rules_with_openai chat json_loads text title payer log = (Ok g, log') ->
    Guideline.title g = title /\
    Guideline.insurance_name g = payer /\
    Rule.rule_text (Guideline.rules g) = "Medical Necessity".
Proof.
  intros chat json_loads text title payer log log' g H.
  rewrite TransformFacts.extract_run in H. injection H as H _.
  destruct (chat log MODEL (messages text)) as [content|e]; [|discriminate].
  exact (TransformFacts.process_output_ok _ _ _ _ _ H).
Qed.

(** The stubbed run of the end-to-end scenario: the guesses of the model
    for the title, the payer and the root text are replaced. *)
Lemma normalization_invariants_witness :
  Guideline.title Fixtures.minimal_guideline = "Chronic Fatigue Syndrome" /\
  Guideline.insurance_name Fixtures.minimal_guideline = "Aetna" /\
  Rule.rule_text (Guideline.rules Fixtures.minimal_guideline) = "Medical Necessity".
Proof.
  apply (normalization_invariants
           (Fixtures.respond Fixtures.minimal_response) Json.loads
           Fixtures.criteria_text "Chronic Fatigue Syndrome" "Aetna"
           [] [ChatCompletion MODEL (messages Fixtures.criteria_text)]).
  vm_compute. reflexivity.
Defined.

(** C3, as the program has it.  When [json.loads] raises [JSONDecodeError]
    on what is left of the response after trimming and fence removal, the
    transformer raises the [ValueError] that wraps it (the specification's
    MalformedResponse): no other exception, and no guideline.  An exception
    of another class raised by the reader is not caught by the [except]
    clause and leaves the transformer as it is. *)
Theorem malformed_response_raises :
  forall chat json_loads (text title payer : string) (log : list event)
         (content : string),
    chat log MODEL (messages text) = Ok content ->
    (json_loads (strip_fence (Str.strip content)) = Raise JSONDecodeError ->
     extract_rules_with_openai chat json_loads text title payer log
     = (Raise MalformedResponse,
        (log ++ [ChatCompletion MODEL (messages text)])%list)) /\
    (forall e : exn,
        json_loads (strip_fence (Str.strip content)) = Raise e ->
        e <> JSONDecodeError -> e <> ValidationError ->
        extract_rules_with_openai chat json_loads text title payer log
        = (Raise e, (log ++ [ChatCompletion MODEL (messages text)])%list)).
Proof.
  intros chat json_loads text title payer log content Hc.
  rewrite TransformFacts.extract_run, Hc. split.
  - intros Hj.
    now rewrite (TransformFacts.process_output_undecodable _ _ _ _ Hj).
  - intros e Hj H1 H2.
    rewrite (TransformFacts.process_output_reader_raises _ _ _ _ _ Hj).
    now rewrite (TransformFacts.handler_passes e H1 H2).
Qed.

(** The response "not json at all". *)
Lemma malformed_response_raises_witness :
  extract_rules_with_openai (Fixtures.respond "not json at all") Json.loads
    Fixtures.criteria_text "Chronic Fatigue Syndrome" "Aetna" []
  = (Raise MalformedResponse,
     [ChatCompletion MODEL (messages Fixtures.criteria_text)]).
Proof.
  apply (proj1 (malformed_response_raises
                  (Fixtures.respond "not json at all") Json.loads
                  Fixtures.criteria_text "Chronic Fatigue Syndrome" "Aetna" []
                  "not json at all" eq_refl)).
  vm_compute. reflexivity.
Defined.

(** C3, as stated, fails: a thousand and one opening brackets are not
    JSON, the reader gives up with [RecursionError] before it can say so,
    and that exception, not the wrapped decode error, leaves the
    transformer. *)
Lemma deep_nesting_escapes_handler :
  Json.loads (strip_fence (Str.strip Cases.deep_brackets)) = Raise RecursionError /\
  extract_rules_with_openai (Fixtures.respond Cases.deep_brackets) Json.loads
    Fixtures.criteria_text "Chronic Fatigue Syndrome" "Aetna" []
  = (Raise RecursionError,
     [ChatCompletion MODEL (messages Fixtures.criteria_text)]) /\
  ~ unparseable_always_wrapped Json.loads.
Proof.
  assert (Hl : Json.loads (strip_fence (Str.strip Cases.deep_brackets))
               = Raise RecursionError) by (vm_compute; reflexivity).
  assert (Hr : extract_rules_with_openai (Fixtures.respond Cases.deep_brackets)
                 Json.loads Fixtures.criteria_text
                 "Chronic Fatigue Syndrome" "Aetna" []
               = (Raise RecursionError,
                  [ChatCompletion MODEL (messages Fixtures.criteria_text)]))
    by (vm_compute; reflexivity).
  split; [exact Hl|]. split; [exact Hr|].
  intros H.
  specialize (H Cases.deep_brackets Fixtures.criteria_text
                "Chronic Fatigue Syndrome" "Aetna" []).
  rewrite Hr in H.
  assert (Hno : forall v, Json.loads (strip_fence (Str.strip Cases.deep_brackets))
                          <> Ok v) by (intros v; rewrite Hl; discriminate).
  specialize (H Hno). discriminate H.
Qed.

(** C4. For a payload that does not itself begin with the fence marker, as
    no JSON text does, the response made of an opening fence line, the
    payload and a closing fence line is post-processed like the payload
    on its own: in both cases the JSON reader is given the trimmed
    payload, so whatever structure it reads from the payload is the
    structure both runs go on with, and both end in the outcome of
    post-processing the trimmed payload. *)
Theorem fence_stripping_same_structure :
  forall (lang payload : string),
    Str.contains_char Str.nl_char lang = false ->
    Str.startswith fence (Str.strip payload) = false ->
    forall json_loads (text title payer : string) (log : list event),
      strip_fence (Str.strip (Fixtures.fenced lang payload)) = Str.strip payload /\
      strip_fence (Str.strip payload) = Str.strip payload /\
      (forall v : json,
          json_loads (Str.strip payload) = Ok v ->
          json_loads (strip_fence (Str.strip (Fixtures.fenced lang payload)))
          = Ok v /\
          json_loads (strip_fence (Str.strip payload)) = Ok v) /\
      extract_rules_with_openai
        (Fixtures.respond (Fixtures.fenced lang payload)) json_loads
        text title payer log
      = (process_output json_loads (Str.strip payload) title payer,
         (log ++ [ChatCompletion MODEL (messages text)])%list) /\
      extract_rules_with_openai
        (Fixtures.respond payload) json_loads text title payer log
      = (process_output json_loads (Str.strip payload) title payer,
         (log ++ [ChatCompletion MODEL (messages text)])%list).
Proof.
  intros lang payload Hlang Hp json_loads text title payer log.
  pose proof (FenceFacts.strip_fence_fenced lang payload Hlang) as E1.
  pose proof (FenceFacts.strip_fence_unfenced _ Hp) as E2.
  split; [exact E1|]. split; [exact E2|]. split.
  - intros v Hv. now rewrite E1, E2.
  - rewrite !TransformFacts.extract_run. unfold Fixtures.respond.
    now rewrite E1, E2.
Qed.

(** The minimal response, fenced as [json] and bare: both runs return the
    guideline read from it. *)
Lemma fence_stripping_same_structure_witness :
  extract_rules_with_openai
    (Fixtures.respond (Fixtures.fenced "json" Fixtures.minimal_response))
    Json.loads Fixtures.criteria_text "Chronic Fatigue Syndrome" "Aetna" []
  = (process_output Json.loads (Str.strip Fixtures.minimal_response)
       "Chronic Fatigue Syndrome" "Aetna",
     [ChatCompletion MODEL (messages Fixtures.criteria_text)]).
Proof.
  refine (proj1 (proj2 (proj2 (proj2
            (fence_stripping_same_structure
               "json" Fixtures.minimal_response _ _
               Json.loads Fixtures.criteria_text
               "Chronic Fatigue Syndrome" "Aetna" []))))).
  - reflexivity.
  - vm_compute. reflexivity.
Defined.

(** C8. One call of the transformer makes exactly one call to the language
    model, whatever the response and whatever becomes of it: the log grows
    by that one call and by nothing else. *)
Theorem model_called_once :
  forall chat json_loads (text title payer : string) (log : list event),
    snd (extract_rules_with_openai chat json_loads text title payer log)
    = (log ++ [ChatCompletion MODEL (messages text)])%list /\
    model_calls (snd (extract_rules_with_openai chat json_loads text title payer log))
    = S (model_calls log).
Proof.
  intros. rewrite TransformFacts.extract_run. cbn [snd].
  split; [reflexivity | apply TransformFacts.model_calls_snoc].
Qed.

(** C10. Some response is valid JSON without being an object, and on it
    the transformer raises [TypeError], which is none of the declared
    failures: the [except] clause names the decoding and the validation
    error only. *)
Theorem non_object_response_type_error :
  exists content : string,
    Json.loads content = Ok (JArray []) /\
    (forall (text title payer : string) (log : list event),
        extract_rules_with_openai (Fixtures.respond content) Json.loads
          text title payer log
        = (Raise TypeError,
           (log ++ [ChatCompletion MODEL (messages text)])%list)) /\
    ~ declared_failure TypeError /\
    TypeError <> MalformedResponse /\
    TypeError <> SchemaValidationError.
Proof.
  exists "[]". split; [reflexivity|]. split.
  - intros. rewrite TransformFacts.extract_run. unfold Fixtures.respond.
    now rewrite (TransformFacts.process_output_non_object
                   Json.loads (strip_fence (Str.strip "[]")) title payer
                   (JArray []) eq_refl eq_refl).
  - split; [|split; discriminate].
    intros H. inversion H.
Qed.

(** ** The extractor *)

Module ExtractFacts.

Lemma first_located_none {p : Soup.node -> bool} (l : list Soup.node) :
  Soup.first_located p l = None <-> Forall (fun n => p n = false) l.
Proof.
  induction l as [|x l IH]; simpl.
  - split; [constructor | reflexivity].
  - destruct (p x) eqn:E; split; intros H.
    + discriminate.
    + inversion H; congruence.
    + constructor; [assumption | now apply IH].
    + inversion H; now apply IH.
Qed.

(** The forward scan returns the first node that passes the filter, however
    many nodes that do not pass come before it. *)
Lemma first_located_skip {p : Soup.node -> bool} (before : list Soup.node)
      (x : Soup.node) (rest : list Soup.node) :
  Forall (fun n => p n = false) before ->
  p x = true ->
  Soup.first_located p (before ++ x :: rest) = Some (Soup.Located x rest).
Proof.
  intros Hb Hx. induction Hb as [|y before Hy _ IH]; simpl.
  - now rewrite Hx.
  - now rewrite Hy.
Qed.

(** One run of the extractor: the request is logged, and the outcome is a
    function of the text of the response. *)
Lemma fetch_run requests_get BeautifulSoup (u : string) (log : list event) :
  fetch_aetna_guidelines requests_get BeautifulSoup u log
  = (match requests_get log u with
     | Ok text => policy_text (BeautifulSoup text)
     | Raise e => Raise e
     end,
     (log ++ [HttpGet u headers])%list).
Proof.
  unfold fetch_aetna_guidelines, bind, call, lift.
  now destruct (requests_get log u).
Qed.

Lemma policy_text_no_heading (soup : Soup.node) :
  Forall (fun n => Soup.matches "h2" "policyHead" "Policy" n = false)
         (Soup.descendants soup) ->
  policy_text soup = Raise HeadingNotFound.
Proof.
  intros H. unfold policy_text, Soup.find.
  now rewrite (proj2 (first_located_none _) H).
Qed.

Lemma policy_text_with_heading (soup : Soup.node) (header : Soup.located) :
  Soup.find (Soup.matches "h2" "policyHead" "Policy") soup = Some header ->
  policy_text soup
  = match Soup.first_located (Soup.is_tag "ol") (Soup.next_elements header) with
    | Some ol => Ok (Str.strip (Soup.get_text Str.nl (Soup.element ol)))
    | None => Raise ContainerNotFound
    end.
Proof. intros H. unfold policy_text. now rewrite H. Qed.

Lemma document_order_app (l1 l2 : list Soup.node) :
  Soup.document_order (l1 ++ l2)
  = (Soup.document_order l1 ++ Soup.document_order l2)%list.
Proof. apply flat_map_app. Qed.

Lemma document_order_cons (c : Soup.node) (l : list Soup.node) :
  Soup.document_order (c :: l)
  = c :: (Soup.descendants c ++ Soup.document_order l)%list.
Proof. reflexivity. Qed.

(** The heading and the list of the two criteria inside a larger page:
    nothing before the heading matches, and no other ordered list stands
    between the two. *)
Lemma policy_text_embedded (before between after : list Soup.node) :
  Forall (fun n => Soup.matches "h2" "policyHead" "Policy" n = false)
         (Soup.document_order before) ->
  Forall (fun n => Soup.is_tag "ol" n = false) (Soup.document_order between) ->
  policy_text
    (Fixtures.document
       (before ++ Fixtures.policy_heading :: between
               ++ Fixtures.criteria :: after)%list)
  = Ok ("Criterion A" ++ Str.nl ++ "Criterion B").
Proof.
  intros Hb Hm. unfold policy_text, Soup.find, Fixtures.document.
  change (Soup.descendants (Soup.Tag "[document]" [] ?l))
    with (Soup.document_order l).
  rewrite document_order_app, document_order_cons.
  rewrite (first_located_skip _ Fixtures.policy_heading _ Hb eq_refl).
  unfold Soup.find_next. cbn [Soup.next_elements].
  rewrite document_order_app, document_order_cons.
  change (Soup.descendants Fixtures.policy_heading)
    with [Soup.NavigableString "Policy"].
  cbn [app].
  rewrite (app_comm_cons (Soup.document_order between)).
  rewrite first_located_skip;
    [reflexivity | constructor; [reflexivity | exact Hm] | reflexivity].
Qed.

End ExtractFacts.

(** C2, as the program has it.  When the heading is found, the extractor
    fails with the [ValueError] of the missing list (ContainerNotFound)
    exactly when no ordered list comes anywhere after the heading in
    document order; the scan does not stop at a later heading, and the
    first ordered list after the heading is the one whose text is
    returned, whatever lies between the two. *)
Theorem container_scan_whole_page :
  forall (soup : Soup.node) (header : Soup.located),
    Soup.find (Soup.matches "h2" "policyHead" "Policy") soup = Some header ->
    (policy_text soup = Raise ContainerNotFound <->
     Forall (fun n => Soup.is_tag "ol" n = false) (Soup.next_elements header)) /\
    (forall (before : list Soup.node) (ol : Soup.node) (rest : list Soup.node),
        Soup.next_elements header = (before ++ ol :: rest)%list ->
        Forall (fun n => Soup.is_tag "ol" n = false) before ->
        Soup.is_tag "ol" ol = true ->
        policy_text soup = Ok (Str.strip (Soup.get_text Str.nl ol))).
Proof.
  intros soup header Hh.
  rewrite (ExtractFacts.policy_text_with_heading _ _ Hh). split.
  - rewrite <- ExtractFacts.first_located_none.
    destruct (Soup.first_located (Soup.is_tag "ol") (Soup.next_elements header));
      split; intros H; try discriminate; reflexivity.
  - intros before ol rest -> Hb Hol.
    now rewrite (ExtractFacts.first_located_skip _ _ _ Hb Hol).
Qed.

(** A page with the heading and no ordered list at all is refused. *)
Lemma container_scan_whole_page_witness :
  policy_text Fixtures.no_list_page = Raise ContainerNotFound.
Proof.
  apply (proj1 (container_scan_whole_page Fixtures.no_list_page
                  (Soup.Located Fixtures.policy_heading
                     [Soup.NavigableString "Policy";
                      Soup.Tag "p" [] [Soup.NavigableString "None."];
                      Soup.NavigableString "None."])
                  eq_refl)).
  repeat constructor.
Defined.

(** C2, as stated, fails: on the page where the only ordered list comes
    after the next heading of the same kind, the section after the anchor
    holds no list, and yet the extractor returns the text of that list. *)
Lemma container_past_next_heading :
  policy_text Fixtures.list_past_next_heading = Ok "Reference 1" /\
  ~ stops_at_next_heading Fixtures.list_past_next_heading.
Proof.
  split; [reflexivity|]. intros H.
  specialize (H (Soup.Located Fixtures.policy_heading
                   [Soup.NavigableString "Policy";
                    Soup.Tag "p" [] [Soup.NavigableString "See the bulletin."];
                    Soup.NavigableString "See the bulletin.";
                    Soup.Tag "h2" ["policyHead"] [Soup.NavigableString "Background"];
                    Soup.NavigableString "Background";
                    Soup.Tag "ol" [] [Fixtures.li "Reference 1"];
                    Fixtures.li "Reference 1";
                    Soup.NavigableString "Reference 1"])
                eq_refl eq_refl).
  vm_compute in H. discriminate H.
Qed.

(** C5. On the page made of the heading [<h2 class="policyHead">Policy</h2>]
    followed by the list of Criterion A and Criterion B, the extractor
    returns the two criteria separated by one newline. *)
Theorem end_to_end_extract :
  policy_text Fixtures.policy_page
  = Ok ("Criterion A" ++ Str.nl ++ "Criterion B") /\
  (forall requests_get BeautifulSoup (u html : string) (log : list event),
      requests_get log u = Ok html ->
      BeautifulSoup html = Fixtures.policy_page ->
      fetch_aetna_guidelines requests_get BeautifulSoup u log
      = (Ok ("Criterion A" ++ Str.nl ++ "Criterion B"),
         (log ++ [HttpGet u headers])%list)) /\
  (forall before between after : list Soup.node,
      Forall (fun n => Soup.matches "h2" "policyHead" "Policy" n = false)
             (Soup.document_order before) ->
      Forall (fun n => Soup.is_tag "ol" n = false)
             (Soup.document_order between) ->
      policy_text
        (Fixtures.document
           (before ++ Fixtures.policy_heading :: between
                   ++ Fixtures.criteria :: after)%list)
      = Ok ("Criterion A" ++ Str.nl ++ "Criterion B")).
Proof.
  split; [reflexivity|]. split.
  - intros requests_get BeautifulSoup u html log Hr Hb.
    now rewrite ExtractFacts.fetch_run, Hr, Hb.
  - intros before between after Hb Hm.
    exact (ExtractFacts.policy_text_embedded _ _ _ Hb Hm).
Qed.

Lemma end_to_end_extract_witness :
  fetch_aetna_guidelines (Fixtures.serve "html") (Fixtures.build Fixtures.policy_page)
    url []
  = (Ok ("Criterion A" ++ Str.nl ++ "Criterion B"), [HttpGet url headers]).
Proof.
  apply (proj1 (proj2 end_to_end_extract) (Fixtures.serve "html")
           (Fixtures.build Fixtures.policy_page) url "html" []);
    reflexivity.
Defined.

(** C7. When no node of the page is an [h2] of class [policyHead] whose
    text is exactly "Policy", the extractor raises the [ValueError] of the
    missing header (HeadingNotFound), [main] reports it and stops, and the
    language model is not called: the run adds no model call to the log. *)
Theorem missing_heading_short_circuit :
  forall requests_get BeautifulSoup chat json_loads (html : string)
         (log : list event),
    requests_get log url = Ok html ->
    Forall (fun n => Soup.matches "h2" "policyHead" "Policy" n = false)
           (Soup.descendants (BeautifulSoup html)) ->
    fetch_aetna_guidelines requests_get BeautifulSoup url log
    = (Raise HeadingNotFound, (log ++ [HttpGet url headers])%list) /\
    main requests_get BeautifulSoup chat json_loads log
    = (Ok tt,
       (log ++ [HttpGet url headers;
                Stdout (An_error_occurred HeadingNotFound)])%list) /\
    model_calls (snd (main requests_get BeautifulSoup chat json_loads log))
    = model_calls log.
Proof.
  intros requests_get BeautifulSoup chat json_loads html log Hr Hn.
  assert (Hf : fetch_aetna_guidelines requests_get BeautifulSoup url log
               = (Raise HeadingNotFound, (log ++ [HttpGet url headers])%list)).
  { rewrite ExtractFacts.fetch_run, Hr.
    now rewrite (ExtractFacts.policy_text_no_heading _ Hn). }
  assert (Hm : main requests_get BeautifulSoup chat json_loads log
               = (Ok tt,
                  (log ++ [HttpGet url headers;
                           Stdout (An_error_occurred HeadingNotFound)])%list)).
  { unfold main, try_except, bind. rewrite Hf. unfold print.
    now rewrite <- app_assoc. }
  split; [exact Hf|]. split; [exact Hm|].
  rewrite Hm. cbn [snd].
  change [HttpGet url headers; Stdout (An_error_occurred HeadingNotFound)]
    with ([HttpGet url headers] ++ [Stdout (An_error_occurred HeadingNotFound)])%list.
  rewrite app_assoc.
  now rewrite !TransformFacts.model_calls_other.
Qed.

Lemma missing_heading_short_circuit_witness :
  main (Fixtures.serve "html") (Fixtures.build Fixtures.no_heading_page)
    (Fixtures.respond Fixtures.minimal_response) Json.loads []
  = (Ok tt, [HttpGet url headers; Stdout (An_error_occurred HeadingNotFound)]).
Proof.
  apply (proj1 (proj2 (missing_heading_short_circuit
                         (Fixtures.serve "html")
                         (Fixtures.build Fixtures.no_heading_page)
                         (Fixtures.respond Fixtures.minimal_response)
                         Json.loads "html" [] eq_refl
                         ltac:(repeat constructor)))).
Defined.

(** * Further properties of the program *)

(** ** Trimming *)

Module StripFacts.
Import Str StrFacts.

Lemma lstrip_clean (s : string) : starts_clean s = true -> lstrip s = s.
Proof.
  destruct s as [|c r]; [reflexivity|]. simpl.
  now destruct (isspace c).
Qed.

Lemma lstrip_starts_clean (s : string) : starts_clean (lstrip s) = true.
Proof.
  induction s as [|c r IH]; [reflexivity|]. simpl.
  destruct (isspace c) eqn:E; [exact IH|]. simpl. now rewrite E.
Qed.

Lemma rstrip_starts_clean (s : string) :
  starts_clean s = true -> starts_clean (rstrip s) = true.
Proof.
  destruct s as [|c r]; [reflexivity|]. cbn [starts_clean rstrip]. intros H.
  destruct (rstrip r).
  - destruct (isspace c) eqn:E; [discriminate|]. cbn [starts_clean].
    now rewrite E.
  - exact H.
Qed.

Lemma rstrip_idempotent (s : string) : rstrip (rstrip s) = rstrip s.
Proof.
  induction s as [|c r IH]; [reflexivity|]. simpl.
  destruct (rstrip r) as [|c' r'] eqn:E.
  - destruct (isspace c) eqn:Ec; [reflexivity|]. simpl. now rewrite Ec.
  - rewrite rstrip_cons; rewrite IH; [reflexivity | discriminate].
Qed.

(** Trimming a trimmed text changes nothing. *)
Lemma strip_idempotent (s : string) : strip (strip s) = strip s.
Proof.
  unfold strip.
  rewrite (lstrip_clean (rstrip (lstrip s))).
  - apply rstrip_idempotent.
  - apply rstrip_starts_clean, lstrip_starts_clean.
Qed.

Lemma lstrip_spaces (ws s : string) :
  all_space ws = true -> lstrip (ws ++ s) = lstrip s.
Proof.
  induction ws as [|c ws IH]; [reflexivity|]. simpl.
  intros H. apply andb_prop in H as [Hc Hws]. rewrite Hc. auto.
Qed.

Lemma rstrip_spaces_only (ws : string) : all_space ws = true -> rstrip ws = "".
Proof.
  induction ws as [|c ws IH]; [reflexivity|]. simpl.
  intros H. apply andb_prop in H as [Hc Hws]. now rewrite (IH Hws), Hc.
Qed.

Lemma rstrip_spaces (s ws : string) :
  all_space ws = true -> rstrip (s ++ ws) = rstrip s.
Proof.
  intros H. induction s as [|c s IH]; simpl.
  - now apply rstrip_spaces_only.
  - now rewrite IH.
Qed.

Lemma strip_spaces_only (ws : string) : all_space ws = true -> strip ws = "".
Proof.
  intros H. unfold strip.
  replace (lstrip ws) with (lstrip (ws ++ "")).
  - now rewrite (lstrip_spaces _ _ H).
  - f_equal. clear H. induction ws; simpl; congruence.
Qed.

Lemma all_space_append (a b : string) :
  all_space (a ++ b) = all_space a && all_space b.
Proof.
  induction a as [|c a IH]; [reflexivity|]. simpl.
  now rewrite IH, andb_assoc.
Qed.

Lemma all_space_join (l : list string) :
  Forall (fun s => all_space s = true) l -> all_space (join nl l) = true.
Proof.
  unfold join. induction 1 as [|s l Hs Hl IH]; [reflexivity|].
  destruct l as [|s' l']; [exact Hs|].
  change (String.concat nl (s :: s' :: l'))
    with (s ++ nl ++ String.concat nl (s' :: l')).
  rewrite !all_space_append, Hs, IH. reflexivity.
Qed.

(** A fenced response between two runs of whitespace trims to itself. *)
Lemma strip_padded_fenced (ws1 ws2 lang payload : string) :
  all_space ws1 = true -> all_space ws2 = true ->
  strip (ws1 ++ Fixtures.fenced lang payload ++ ws2)
  = Fixtures.fenced lang payload.
Proof.
  intros H1 H2. unfold strip.
  rewrite (lstrip_spaces _ _ H1).
  replace (lstrip (Fixtures.fenced lang payload ++ ws2))
    with (Fixtures.fenced lang payload ++ ws2) by reflexivity.
  rewrite (rstrip_spaces _ _ H2).
  exact (FenceFacts.strip_fenced lang payload).
Qed.

(** The reference reader refuses every text that begins with the fence
    marker. *)
Lemma loads_refuses_fence (s : string) :
  startswith fence s = true -> Json.loads s = Raise JSONDecodeError.
Proof.
  destruct s as [|c r]; [discriminate|]. unfold fence. cbn [startswith].
  intros H. apply andb_prop in H as [Hc _].
  apply Ascii.eqb_eq in Hc. subst c.
  unfold Json.loads, Json.loads_within. cbn [Json.skip_ws].
  change (Json.is_ws "`"%char) with false. cbv iota.
  now rewrite FenceFacts.value_refuses; [|reflexivity | right].
Qed.

End StripFacts.

(** ** Post-processing, case by case *)

Module OutputFacts.
Import DictFacts SchemaFacts.

(** The validation of a rule dict whose [rule_text] was just written. *)
Lemma validate_overwritten (budget : nat) (di : dict) (x : string) :
  Rule.validate_within budget (JObject (dict_set "rule_text" (JString x) di))
  = match Rule.str_field "rule_id" di, Rule.optional_str_field "operator" di,
          Rule.validate_children (Rule.reference budget) (dict_get "rules" di)
    with
    | Some i, Some o, Some rs => Some (Rule.Build i x o rs)
    | _, _, _ => None
    end.
Proof.
  rewrite validate_within_dict.
  unfold Rule.str_field, Rule.optional_str_field.
  rewrite dict_get_set_same.
  rewrite !dict_get_set_other by discriminate.
  destruct (dict_get "rule_id" di) as [[]|]; reflexivity.
Qed.

(** The validation of the dict the transformer hands to the schema. *)
Lemma validate_normalized (d : dict) (title payer : string) (root : json) :
  Guideline.model_validate
    (JObject (dict_set "rules" root
                (dict_set "insurance_name" (JString payer)
                   (dict_set "title" (JString title) d))))
  = match Rule.validate_within 253 root with
    | Some r => Some (Guideline.Build title payer r)
    | None => None
    end.
Proof.
  unfold Guideline.model_validate, Rule.str_field.
  rewrite dict_get_set_same.
  rewrite !dict_get_set_other by discriminate.
  rewrite !dict_get_set_same.
  rewrite dict_get_set_other by discriminate.
  now rewrite dict_get_set_same.
Qed.

(** The outcome of the [try] block on a response that is a JSON object. *)
Lemma process_output_object json_loads (result title payer : string) (d : dict) :
  json_loads result = Ok (JObject d) ->
  process_output json_loads result title payer
  = match dict_get "rules" d with
    | None => Raise SchemaValidationError
    | Some (JObject di) =>
        match Rule.validate_within 253
                (JObject (dict_set "rule_text" (JString sentinel) di)) with
        | Some r => Ok (Guideline.Build title payer r)
        | None => Raise SchemaValidationError
        end
    | Some _ => Raise TypeError
    end.
Proof.
  intros H. unfold process_output. rewrite H.
  cbn [setitem and_then].
  set (d2 := dict_set "insurance_name" (JString payer)
               (dict_set "title" (JString title) d)).
  assert (Hr : dict_get "rules" d2 = dict_get "rules" d).
  { subst d2. now rewrite !dict_get_set_other by discriminate. }
  unfold contains, dict_contains. rewrite Hr.
  destruct (dict_get "rules" d) as [root|] eqn:E.
  - cbn [getitem]. rewrite Hr. cbn [and_then].
    destruct root as [| | | | |di]; try reflexivity.
    cbn [setitem and_then]. subst d2. rewrite validate_normalized.
    now destruct (Rule.validate_within 253 _).
  - cbn [and_then]. unfold Guideline.model_validate. rewrite Hr.
    now destruct (Rule.str_field "title" d2),
                 (Rule.str_field "insurance_name" d2).
Qed.

(** A guideline that passed validation can be dumped. *)
Lemma validated_dumps (j : json) (g : Guideline.t) :
  Guideline.model_validate j = Some g ->
  Guideline.model_dump g = Ok (Guideline.dump g).
Proof.
  intros H. destruct j as [| | | | |d]; try discriminate.
  apply guideline_validate_fields in H as (_ & _ & root & _ & Hr).
  change (Rule.reference (Rule.recursion_guard_limit - 1))
    with (Rule.validate_within 253) in Hr.
  apply validated_nesting in Hr. unfold Guideline.model_dump.
  replace (S (Rule.nesting (Guideline.rules g)) <? Rule.recursion_guard_limit)%nat
    with true; [reflexivity|].
  symmetry. apply Nat.ltb_lt. unfold Rule.recursion_guard_limit. lia.
Qed.

(** A guideline the [try] block returns can be dumped. *)
Lemma processed_dumps json_loads (result title payer : string) (g : Guideline.t) :
  process_output json_loads result title payer = Ok g ->
  Guideline.model_dump g = Ok (Guideline.dump g).
Proof.
  unfold process_output.
  destruct (json_loads result) as [data|e]; [|destruct e; discriminate].
  destruct data as [| | | | |d]; try discriminate.
  cbn [setitem and_then].
  set (d2 := dict_set "insurance_name" (JString payer)
               (dict_set "title" (JString title) d)).
  unfold contains, dict_contains.
  destruct (dict_get "rules" d2) as [inner|] eqn:Hr.
  - cbn [getitem]. rewrite Hr. cbn [and_then].
    destruct inner as [| | | | |di]; try discriminate.
    cbn [setitem and_then].
    destruct (Guideline.model_validate _) as [g'|] eqn:Hv; [|discriminate].
    intros [= <-]. exact (validated_dumps _ _ Hv).
  - cbn [and_then].
    destruct (Guideline.model_validate _) as [g'|] eqn:Hv; [|discriminate].
    intros [= <-]. exact (validated_dumps _ _ Hv).
Qed.

End OutputFacts.

(** ** One run of [main] *)

Module MainFacts.

(** The extractor raises nothing but its two [ValueError]s. *)
Lemma policy_text_raises (soup : Soup.node) (e : exn) :
  policy_text soup = Raise e -> e = HeadingNotFound \/ e = ContainerNotFound.
Proof.
  unfold policy_text.
  destruct (Soup.find _ soup) as [header|]; [|intros [= <-]; now left].
  destruct (Soup.find_next _ header); [discriminate|].
  intros [= <-]. now right.
Qed.

(** One run of [main]: the request for the page, then, when the page gave
    a text, the one call to the model with that text, then the end of the
    [try] statement. *)
Lemma main_run requests_get BeautifulSoup chat json_loads (log : list event) :
  main requests_get BeautifulSoup chat json_loads log
  = match requests_get log url with
    | Raise e => settle (Raise e) (log ++ [HttpGet url headers])%list
    | Ok html =>
        match policy_text (BeautifulSoup html) with
        | Raise e => settle (Raise e) (log ++ [HttpGet url headers])%list
        | Ok text =>
            settle
              match chat (log ++ [HttpGet url headers])%list
                         MODEL (messages text) with
              | Ok content =>
                  and_then
                    (process_output json_loads
                       (strip_fence (Str.strip content))
                       "Chronic Fatigue Syndrome" "Aetna")
                    Guideline.model_dump
              | Raise e => Raise e
              end
              (log ++ [HttpGet url headers;
                       ChatCompletion MODEL (messages text)])%list
        end
    end.
Proof.
  unfold main, try_except, bind.
  rewrite ExtractFacts.fetch_run.
  destruct (requests_get log url) as [html|e]; [|reflexivity].
  destruct (policy_text (BeautifulSoup html)) as [text|e]; [|reflexivity].
  rewrite TransformFacts.extract_run. rewrite <- app_assoc. cbn [app].
  destruct (chat (log ++ [HttpGet url headers])%list MODEL (messages text))
    as [content|e]; [|reflexivity].
  destruct (process_output json_loads (strip_fence (Str.strip content))
              "Chronic Fatigue Syndrome" "Aetna") as [g|e]; [|reflexivity].
  cbn [and_then]. unfold lift, print.
  now destruct (Guideline.model_dump g).
Qed.

End MainFacts.

Module LogFacts.

Lemma model_calls_app (l1 l2 : list event) :
  model_calls (l1 ++ l2) = model_calls l1 + model_calls l2.
Proof. unfold model_calls. now rewrite filter_app, length_app. Qed.

Lemma last_after {A : Type} (l : list A) (a : A) (l' : list A) (d : A) :
  last (l ++ a :: l') d = last (a :: l') d.
Proof.
  induction l as [|x l IH]; [reflexivity|].
  change ((x :: l) ++ a :: l')%list with (x :: (l ++ a :: l'))%list.
  cbn [last]. destruct (l ++ a :: l')%list eqn:E; [|exact IH].
  now destruct l.
Qed.


End LogFacts.


(** X2. When the request for the page fails (the transport raises, or
    [raise_for_status] does), the extractor raises that very exception;
    nothing is parsed and the model is not called.  [main] prints the
    exception when it is of class [Exception], and lets it through,
    printing nothing, when it is not. *)
Theorem transport_failure_reported :
  forall requests_get BeautifulSoup chat json_loads (log : list event) (e : exn),
    requests_get log url = Raise e ->
    fetch_aetna_guidelines requests_get BeautifulSoup url log
    = (Raise e, (log ++ [HttpGet url headers])%list) /\
    (is_exception e = true ->
     main requests_get BeautifulSoup chat json_loads log
     = (Ok tt, (log ++ [HttpGet url headers; Stdout (An_error_occurred e)])%list)) /\
    (is_exception e = false ->
     main requests_get BeautifulSoup chat json_loads log
     = (Raise e, (log ++ [HttpGet url headers])%list)).
Proof.
  intros requests_get BeautifulSoup chat json_loads log e H.
  rewrite ExtractFacts.fetch_run, MainFacts.main_run, H. cbn [settle].
  split; [reflexivity|]. split; intros ->; [|reflexivity].
  now rewrite <- app_assoc.
Qed.

Lemma transport_failure_reported_witness :
  main Cases.unreachable (Fixtures.build Fixtures.policy_page)
    (Fixtures.respond Fixtures.minimal_response) Json.loads []
  = (Ok tt,
     [HttpGet url headers;
      Stdout (An_error_occurred (External "requests.exceptions.HTTPError"))]) /\
  main Cases.interrupted (Fixtures.build Fixtures.policy_page)
    (Fixtures.respond Fixtures.minimal_response) Json.loads []
  = (Raise (Interrupt "KeyboardInterrupt"), [HttpGet url headers]).
Proof.
  split.
  - apply (proj1 (proj2 (transport_failure_reported
                           Cases.unreachable
                           (Fixtures.build Fixtures.policy_page)
                           (Fixtures.respond Fixtures.minimal_response)
                           Json.loads []
                           (External "requests.exceptions.HTTPError") eq_refl))).
    reflexivity.
  - apply (proj2 (proj2 (transport_failure_reported
                           Cases.interrupted
                           (Fixtures.build Fixtures.policy_page)
                           (Fixtures.respond Fixtures.minimal_response)
                           Json.loads []
                           (Interrupt "KeyboardInterrupt") eq_refl))).
    reflexivity.
Defined.

(** X3. Whatever makes the extraction fail on a page that was received,
    the missing header or the missing list, [main] prints that exception
    and the model is not called. *)
Theorem extraction_failure_short_circuit :
  forall requests_get BeautifulSoup chat json_loads (log : list event)
         (html : string) (e : exn),
    requests_get log url = Ok html ->
    policy_text (BeautifulSoup html) = Raise e ->
    main requests_get BeautifulSoup chat json_loads log
    = (Ok tt, (log ++ [HttpGet url headers; Stdout (An_error_occurred e)])%list) /\
    model_calls (snd (main requests_get BeautifulSoup chat json_loads log))
    = model_calls log.
Proof.
  intros requests_get BeautifulSoup chat json_loads log html e Hr Hp.
  assert (He : is_exception e = true).
  { destruct (MainFacts.policy_text_raises _ _ Hp) as [-> | ->]; reflexivity. }
  rewrite MainFacts.main_run, Hr, Hp. cbn [settle]. rewrite He.
  rewrite <- app_assoc. split; [reflexivity|].
  cbn [snd]. rewrite LogFacts.model_calls_app. cbn. lia.
Qed.

Lemma extraction_failure_short_circuit_witness :
  main (Fixtures.serve "html") (Fixtures.build Fixtures.no_list_page)
    (Fixtures.respond Fixtures.minimal_response) Json.loads []
  = (Ok tt, [HttpGet url headers; Stdout (An_error_occurred ContainerNotFound)]).
Proof.
  apply (proj1 (extraction_failure_short_circuit
                  (Fixtures.serve "html") (Fixtures.build Fixtures.no_list_page)
                  (Fixtures.respond Fixtures.minimal_response) Json.loads []
                  "html" ContainerNotFound eq_refl eq_refl)).
Defined.



(** A run that ends on an exception has no structured output as its last
    event. *)
Ltac no_structured_output :=
  cbn [and_then settle];
  match goal with
  | |- context [is_exception ?e] => destruct (is_exception e)
  end;
  cbn [snd]; rewrite <- ?app_assoc; cbn [app];
  rewrite LogFacts.last_after; discriminate.

(** X5. Whenever the last thing a run of [main] prints is a structured
    output, it is the dump of a guideline titled "Chronic Fatigue Syndrome",
    of insurance name "Aetna", whose root rule reads "Medical Necessity". *)
Theorem printed_guideline_labels :
  forall requests_get BeautifulSoup chat json_loads (log : list event)
         (j : json),
    last (snd (main requests_get BeautifulSoup chat json_loads log))
         (HttpGet url headers)
    = Stdout (Structured_JSON_Output j) ->
    exists g : Guideline.t,
      Guideline.model_dump g = Ok j /\
      Guideline.title g = "Chronic Fatigue Syndrome" /\
      Guideline.insurance_name g = "Aetna" /\
      Rule.rule_text (Guideline.rules g) = "Medical Necessity".
Proof.
  intros requests_get BeautifulSoup chat json_loads log j.
  rewrite MainFacts.main_run.
  destruct (requests_get log url) as [html|e].
  2:{ no_structured_output. }
  destruct (policy_text (BeautifulSoup html)) as [text|e].
  2:{ no_structured_output. }
  destruct (chat (log ++ [HttpGet url headers])%list MODEL (messages text))
    as [content|e].
  2:{ no_structured_output. }
  destruct (process_output json_loads (strip_fence (Str.strip content))
              "Chronic Fatigue Syndrome" "Aetna") as [g|e] eqn:Hp.
  2:{ no_structured_output. }
  cbn [and_then].
  destruct (Guideline.model_dump g) as [j'|e] eqn:Hd.
  2:{ no_structured_output. }
  cbn [settle snd]. rewrite <- app_assoc. cbn [app].
  rewrite LogFacts.last_after. cbn [last]. intros [= <-]. exists g. split; [exact Hd|].
  exact (TransformFacts.process_output_ok _ _ _ _ _ Hp).
Qed.

Lemma printed_guideline_labels_witness :
  exists g : Guideline.t,
    Guideline.model_dump g = Guideline.model_dump Fixtures.minimal_guideline /\
    Guideline.title g = "Chronic Fatigue Syndrome" /\
    Guideline.insurance_name g = "Aetna" /\
    Rule.rule_text (Guideline.rules g) = "Medical Necessity".
Proof.
  apply (printed_guideline_labels
           (Fixtures.serve "html") (Fixtures.build Fixtures.policy_page)
           (Fixtures.respond Fixtures.minimal_response) Json.loads []).
  vm_compute. reflexivity.
Defined.

(** X6. An exception of the model client is not wrapped: the call sits
    outside the [try] block, so the transformer raises it as it is, after
    the one logged call, and the JSON reader is never consulted. *)
Theorem client_error_unwrapped :
  forall chat json_loads1 json_loads2 (text title payer : string)
         (log : list event) (e : exn),
    chat log MODEL (messages text) = Raise e ->
    extract_rules_with_openai chat json_loads1 text title payer log
    = (Raise e, (log ++ [ChatCompletion MODEL (messages text)])%list) /\
    extract_rules_with_openai chat json_loads1 text title payer log
    = extract_rules_with_openai chat json_loads2 text title payer log.
Proof.
  intros chat json_loads1 json_loads2 text title payer log e H.
  rewrite !TransformFacts.extract_run, H. auto.
Qed.

Lemma client_error_unwrapped_witness :
  extract_rules_with_openai Cases.unavailable Json.loads
    Fixtures.criteria_text "Chronic Fatigue Syndrome" "Aetna" []
  = (Raise (External "openai.APIConnectionError"),
     [ChatCompletion MODEL (messages Fixtures.criteria_text)]).
Proof.
  apply (proj1 (client_error_unwrapped
                  Cases.unavailable Json.loads Json.loads
                  Fixtures.criteria_text "Chronic Fatigue Syndrome" "Aetna" []
                  (External "openai.APIConnectionError") eq_refl)).
Defined.

(** X7. A response that is a JSON object without the key [rules] fails
    validation: the transformer raises the [ValueError] that wraps the
    [ValidationError], whatever else the object holds. *)
Theorem missing_rules_is_schema_error :
  forall chat json_loads (text title payer : string) (log : list event)
         (content : string) (d : dict),
    chat log MODEL (messages text) = Ok content ->
    json_loads (strip_fence (Str.strip content)) = Ok (JObject d) ->
    dict_get "rules" d = None ->
    extract_rules_with_openai chat json_loads text title payer log
    = (Raise SchemaValidationError,
       (log ++ [ChatCompletion MODEL (messages text)])%list).
Proof.
  intros chat json_loads text title payer log content d Hc Hj Hr.
  rewrite TransformFacts.extract_run, Hc.
  now rewrite (OutputFacts.process_output_object _ _ _ _ _ Hj), Hr.
Qed.

Lemma missing_rules_is_schema_error_witness :
  extract_rules_with_openai (Fixtures.respond Cases.without_rules) Json.loads
    Fixtures.criteria_text "Chronic Fatigue Syndrome" "Aetna" []
  = (Raise SchemaValidationError,
     [ChatCompletion MODEL (messages Fixtures.criteria_text)]).
Proof.
  apply (missing_rules_is_schema_error
           (Fixtures.respond Cases.without_rules) Json.loads
           Fixtures.criteria_text "Chronic Fatigue Syndrome" "Aetna" []
           Cases.without_rules [("title", JString "A guess")]).
  - reflexivity.
  - vm_compute. reflexivity.
  - reflexivity.
Defined.

(** X8. A response that is a JSON object whose [rules] is anything but an
    object (null, a list, a string, a number) makes the transformer raise
    [TypeError], from the assignment of the root text, before validation
    is reached; the [except] clause does not catch it. *)
Theorem rules_not_object_type_error :
  forall chat json_loads (text title payer : string) (log : list event)
         (content : string) (d : dict) (v : json),
    chat log MODEL (messages text) = Ok content ->
    json_loads (strip_fence (Str.strip content)) = Ok (JObject d) ->
    dict_get "rules" d = Some v ->
    is_object v = false ->
    extract_rules_with_openai chat json_loads text title payer log
    = (Raise TypeError, (log ++ [ChatCompletion MODEL (messages text)])%list).
Proof.
  intros chat json_loads text title payer log content d v Hc Hj Hr Hv.
  rewrite TransformFacts.extract_run, Hc.
  rewrite (OutputFacts.process_output_object _ _ _ _ _ Hj), Hr.
  destruct v; try reflexivity. discriminate.
Qed.

Lemma rules_not_object_type_error_witness :
  extract_rules_with_openai (Fixtures.respond Cases.null_rules) Json.loads
    Fixtures.criteria_text "Chronic Fatigue Syndrome" "Aetna" []
  = (Raise TypeError, [ChatCompletion MODEL (messages Fixtures.criteria_text)]).
Proof.
  apply (rules_not_object_type_error
           (Fixtures.respond Cases.null_rules) Json.loads
           Fixtures.criteria_text "Chronic Fatigue Syndrome" "Aetna" []
           Cases.null_rules [("rules", JNull)] JNull).
  - reflexivity.
  - vm_compute. reflexivity.
  - reflexivity.
  - reflexivity.
Defined.

(** X9. On a response that is a JSON object whose [rules] is an object,
    the outcome depends on three things only: the [rule_id], the
    [operator] and the [rules] of that root object, the entries of [rules]
    being validated with 252 more levels of nesting allowed below them.
    When they are valid the guideline carries the caller's title and payer
    and the sentinel text; otherwise validation fails.  What the response
    holds for [title], [insurance_name] and the root [rule_text], of
    whatever type, is never looked at. *)
Theorem transformer_outcome_on_object :
  forall chat json_loads (text title payer : string) (log : list event)
         (content : string) (d di : dict),
    chat log MODEL (messages text) = Ok content ->
    json_loads (strip_fence (Str.strip content)) = Ok (JObject d) ->
    dict_get "rules" d = Some (JObject di) ->
    extract_rules_with_openai chat json_loads text title payer log
    = (match Rule.str_field "rule_id" di,
             Rule.optional_str_field "operator" di,
             Rule.validate_children (Rule.validate_within 252)
               (dict_get "rules" di)
       with
       | Some i, Some o, Some rs =>
           Ok (Guideline.Build title payer
                 (Rule.Build i "Medical Necessity" o rs))
       | _, _, _ => Raise SchemaValidationError
       end,
       (log ++ [ChatCompletion MODEL (messages text)])%list).
Proof.
  intros chat json_loads text title payer log content d di Hc Hj Hr.
  rewrite TransformFacts.extract_run, Hc.
  rewrite (OutputFacts.process_output_object _ _ _ _ _ Hj), Hr.
  rewrite OutputFacts.validate_overwritten.
  change (Rule.reference 253) with (Rule.validate_within 252).
  now destruct (Rule.str_field "rule_id" di),
               (Rule.optional_str_field "operator" di),
               (Rule.validate_children (Rule.validate_within 252)
                  (dict_get "rules" di)).
Qed.

Lemma transformer_outcome_on_object_witness :
  extract_rules_with_openai (Fixtures.respond Fixtures.minimal_response)
    Json.loads Fixtures.criteria_text "Chronic Fatigue Syndrome" "Aetna" []
  = (Ok Fixtures.minimal_guideline,
     [ChatCompletion MODEL (messages Fixtures.criteria_text)]).
Proof.
  refine (eq_trans
            (transformer_outcome_on_object
               (Fixtures.respond Fixtures.minimal_response) Json.loads
               Fixtures.criteria_text "Chronic Fatigue Syndrome" "Aetna" []
               Fixtures.minimal_response _ _ eq_refl _ _) _).
  - vm_compute. reflexivity.
  - reflexivity.
  - reflexivity.
Defined.

(** X10. Normalisation touches the root text only.  When the root object
    of the response is a valid rule with at most 253 rules nested below
    it, the transformer returns that rule with its [rule_text] replaced:
    identifier, operator and every nested rule, with its own text, are as
    the model wrote them. *)
Theorem only_root_text_replaced :
  forall chat json_loads (text title payer : string) (log : list event)
         (content : string) (d : dict) (root : json) (r : Rule.t),
    chat log MODEL (messages text) = Ok content ->
    json_loads (strip_fence (Str.strip content)) = Ok (JObject d) ->
    dict_get "rules" d = Some root ->
    Rule.model_validate root = Some r ->
    Rule.nesting r <= 253 ->
    extract_rules_with_openai chat json_loads text title payer log
    = (Ok (Guideline.Build title payer
             (Rule.Build (Rule.rule_id r) "Medical Necessity"
                (Rule.operator r) (Rule.rules r))),
       (log ++ [ChatCompletion MODEL (messages text)])%list).
Proof.
  intros chat json_loads text title payer log content d root r Hc Hj Hr Hv Hn.
  destruct root as [| | | | |di]; try discriminate.
  rewrite TransformFacts.extract_run, Hc.
  rewrite (OutputFacts.process_output_object _ _ _ _ _ Hj), Hr.
  rewrite OutputFacts.validate_overwritten.
  apply (fun H => SchemaFacts.validated_within_any _ _ _ H 253 Hn) in Hv.
  apply SchemaFacts.validate_within_fields in Hv as (Hi & _ & Ho & Hrs).
  apply SchemaFacts.str_field_get in Hi. now rewrite Hi, Ho, Hrs.
Qed.

Lemma only_root_text_replaced_witness :
  extract_rules_with_openai (Fixtures.respond Fixtures.minimal_response)
    Json.loads Fixtures.criteria_text "Chronic Fatigue Syndrome" "Aetna" []
  = (Ok (Guideline.Build "Chronic Fatigue Syndrome" "Aetna"
           (Rule.Build "1" "Medical Necessity" (Some "AND")
              (Some [Rule.Build "1.1" "Criterion A" None None]))),
     [ChatCompletion MODEL (messages Fixtures.criteria_text)]).
Proof.
  refine (only_root_text_replaced
            (Fixtures.respond Fixtures.minimal_response) Json.loads
            Fixtures.criteria_text "Chronic Fatigue Syndrome" "Aetna" []
            Fixtures.minimal_response _ _
            (Rule.Build "1" "Criteria" (Some "AND")
               (Some [Rule.Build "1.1" "Criterion A" None None]))
            eq_refl _ _ _ _).
  - vm_compute. reflexivity.
  - reflexivity.
  - vm_compute. reflexivity.
  - vm_compute. repeat constructor.
Defined.

(** X11. The transformer repairs a root rule that has no [rule_text]: the
    validator alone refuses such a rule, yet the response is accepted,
    because the text is written before validation. *)
Theorem root_text_repaired :
  forall chat json_loads (text title payer : string) (log : list event)
         (content : string) (d di : dict) (i : string),
    chat log MODEL (messages text) = Ok content ->
    json_loads (strip_fence (Str.strip content)) = Ok (JObject d) ->
    dict_get "rules" d = Some (JObject di) ->
    dict_get "rule_text" di = None ->
    Rule.str_field "rule_id" di = Some i ->
    dict_get "operator" di = None ->
    dict_get "rules" di = None ->
    Rule.model_validate (JObject di) = None /\
    extract_rules_with_openai chat json_loads text title payer log
    = (Ok (Guideline.Build title payer
             (Rule.Build i "Medical Necessity" None None)),
       (log ++ [ChatCompletion MODEL (messages text)])%list).
Proof.
  intros chat json_loads text title payer log content d di i
         Hc Hj Hr Hx Hi Ho Hrs.
  split.
  - rewrite SchemaFacts.rule_validate_dict, Hi.
    unfold Rule.str_field at 1. now rewrite Hx.
  - rewrite TransformFacts.extract_run, Hc.
    rewrite (OutputFacts.process_output_object _ _ _ _ _ Hj), Hr.
    rewrite OutputFacts.validate_overwritten, Hi, Hrs.
    unfold Rule.optional_str_field. now rewrite Ho.
Qed.

Lemma root_text_repaired_witness :
  Rule.model_validate (JObject [("rule_id", JString "1")]) = None /\
  extract_rules_with_openai (Fixtures.respond Cases.root_without_text)
    Json.loads Fixtures.criteria_text "Chronic Fatigue Syndrome" "Aetna" []
  = (Ok (Guideline.Build "Chronic Fatigue Syndrome" "Aetna"
           (Rule.Build "1" "Medical Necessity" None None)),
     [ChatCompletion MODEL (messages Fixtures.criteria_text)]).
Proof.
  refine (root_text_repaired
            (Fixtures.respond Cases.root_without_text) Json.loads
            Fixtures.criteria_text "Chronic Fatigue Syndrome" "Aetna" []
            Cases.root_without_text _ [("rule_id", JString "1")] "1"
            eq_refl _ _ eq_refl eq_refl eq_refl eq_refl).
  - vm_compute. reflexivity.
  - reflexivity.
Defined.

(** X12. Whitespace around a fenced response does not matter, and the
    payload need not be JSON: the response is trimmed first, the two fence
    lines are removed, and the post-processing goes on with the trimmed
    payload. *)
Theorem fence_with_padding :
  forall (ws1 ws2 lang payload : string),
    all_space ws1 = true ->
    all_space ws2 = true ->
    Str.contains_char Str.nl_char lang = false ->
    forall json_loads (text title payer : string) (log : list event),
      extract_rules_with_openai
        (Fixtures.respond (ws1 ++ Fixtures.fenced lang payload ++ ws2))
        json_loads text title payer log
      = (process_output json_loads (Str.strip payload) title payer,
         (log ++ [ChatCompletion MODEL (messages text)])%list).
Proof.
  intros ws1 ws2 lang payload H1 H2 Hl json_loads text title payer log.
  rewrite TransformFacts.extract_run. unfold Fixtures.respond.
  rewrite (StripFacts.strip_padded_fenced _ _ _ _ H1 H2).
  rewrite <- (FenceFacts.strip_fenced lang payload) at 1.
  now rewrite (FenceFacts.strip_fence_fenced _ _ Hl).
Qed.

Lemma fence_with_padding_witness :
  extract_rules_with_openai
    (Fixtures.respond
       (" " ++ Fixtures.fenced "json" Fixtures.minimal_response ++ Str.nl))
    Json.loads Fixtures.criteria_text "Chronic Fatigue Syndrome" "Aetna" []
  = (process_output Json.loads (Str.strip Fixtures.minimal_response)
       "Chronic Fatigue Syndrome" "Aetna",
     [ChatCompletion MODEL (messages Fixtures.criteria_text)]).
Proof.
  apply (fence_with_padding " " Str.nl "json" Fixtures.minimal_response
           eq_refl eq_refl eq_refl
           Json.loads Fixtures.criteria_text "Chronic Fatigue Syndrome"
           "Aetna" []).
Defined.

(** X13. A response that opens with the fence marker but does not end with
    it, such as a fenced block followed by a remark, keeps its fence and is
    refused as malformed. *)
Theorem fence_then_prose_rejected :
  forall (content text title payer : string) (log : list event),
    Str.startswith fence (Str.strip content) = true ->
    Str.endswith fence (Str.strip content) = false ->
    strip_fence (Str.strip content) = Str.strip content /\
    extract_rules_with_openai (Fixtures.respond content) Json.loads
      text title payer log
    = (Raise MalformedResponse,
       (log ++ [ChatCompletion MODEL (messages text)])%list).
Proof.
  intros content text title payer log Hs He.
  assert (E : strip_fence (Str.strip content) = Str.strip content).
  { unfold strip_fence. now rewrite Hs, He. }
  split; [exact E|].
  rewrite TransformFacts.extract_run. unfold Fixtures.respond. rewrite E.
  now rewrite (TransformFacts.process_output_undecodable
                 _ _ _ _ (StripFacts.loads_refuses_fence _ Hs)).
Qed.

Lemma fence_then_prose_rejected_witness :
  extract_rules_with_openai (Fixtures.respond Cases.fenced_then_prose)
    Json.loads Fixtures.criteria_text "Chronic Fatigue Syndrome" "Aetna" []
  = (Raise MalformedResponse,
     [ChatCompletion MODEL (messages Fixtures.criteria_text)]).
Proof.
  refine (proj2 (fence_then_prose_rejected
                   Cases.fenced_then_prose Fixtures.criteria_text
                   "Chronic Fatigue Syndrome" "Aetna" [] _ _)).
  - vm_compute. reflexivity.
  - vm_compute. reflexivity.
Defined.

(** X14. Fence removal drops whole lines.  A response that begins and ends
    with the fence marker and holds no newline is a single line, nothing of
    it is left, and the transformer raises the malformed-response error
    even when valid JSON stood between the markers. *)
Theorem one_line_fence_rejected :
  forall (content text title payer : string) (log : list event),
    Str.startswith fence (Str.strip content) = true ->
    Str.endswith fence (Str.strip content) = true ->
    Str.contains_char Str.nl_char (Str.strip content) = false ->
    strip_fence (Str.strip content) = "" /\
    extract_rules_with_openai (Fixtures.respond content) Json.loads
      text title payer log
    = (Raise MalformedResponse,
       (log ++ [ChatCompletion MODEL (messages text)])%list).
Proof.
  intros content text title payer log Hs He Hn.
  assert (E : strip_fence (Str.strip content) = "").
  { unfold strip_fence. rewrite Hs, He. cbn [andb].
    now rewrite (StrFacts.split_none _ _ Hn). }
  split; [exact E|].
  rewrite TransformFacts.extract_run. unfold Fixtures.respond. rewrite E.
  reflexivity.
Qed.

Lemma one_line_fence_rejected_witness :
  strip_fence (Str.strip Cases.fenced_on_one_line) = "" /\
  extract_rules_with_openai (Fixtures.respond Cases.fenced_on_one_line)
    Json.loads Fixtures.criteria_text "Chronic Fatigue Syndrome" "Aetna" []
  = (Raise MalformedResponse,
     [ChatCompletion MODEL (messages Fixtures.criteria_text)]).
Proof.
  apply (one_line_fence_rejected
           Cases.fenced_on_one_line Fixtures.criteria_text
           "Chronic Fatigue Syndrome" "Aetna" []);
    vm_compute; reflexivity.
Defined.

(** X15. The text the JSON reader is given never begins or ends with
    whitespace, fenced response or not: trimming it again changes
    nothing. *)
Theorem reader_gets_trimmed_text :
  forall content : string,
    Str.strip (strip_fence (Str.strip content))
    = strip_fence (Str.strip content).
Proof.
  intros content. unfold strip_fence.
  destruct (Str.startswith fence (Str.strip content)
            && Str.endswith fence (Str.strip content));
    apply StripFacts.strip_idempotent.
Qed.

(** X16. The text the extractor returns is trimmed: whatever the page, a
    returned text is left unchanged by [strip], so it neither begins nor
    ends with whitespace. *)
Theorem extracted_text_trimmed :
  forall (soup : Soup.node) (text : string),
    policy_text soup = Ok text ->
    Str.strip text = text /\ starts_clean text = true.
Proof.
  intros soup text. unfold policy_text.
  destruct (Soup.find _ soup) as [header|]; [|discriminate].
  destruct (Soup.find_next _ header) as [ol|]; [|discriminate].
  intros [= <-]. split.
  - apply StripFacts.strip_idempotent.
  - apply StripFacts.rstrip_starts_clean, StripFacts.lstrip_starts_clean.
Qed.

Lemma extracted_text_trimmed_witness :
  Str.strip Fixtures.criteria_text = Fixtures.criteria_text /\
  starts_clean Fixtures.criteria_text = true.
Proof.
  apply (extracted_text_trimmed Fixtures.policy_page Fixtures.criteria_text).
  reflexivity.
Defined.

(** X17. An ordered list that holds no text, or whitespace only, is found
    all the same: the extractor returns the empty text and raises
    nothing. *)
Theorem blank_list_gives_empty_text :
  forall (soup : Soup.node) (header ol : Soup.located),
    Soup.find (Soup.matches "h2" "policyHead" "Policy") soup = Some header ->
    Soup.find_next (Soup.is_tag "ol") header = Some ol ->
    Forall (fun s => all_space s = true)
           (flat_map Soup.text_of (Soup.descendants (Soup.element ol))) ->
    policy_text soup = Ok "".
Proof.
  intros soup header ol Hh Ho Hs. unfold policy_text. rewrite Hh, Ho.
  f_equal. apply StripFacts.strip_spaces_only.
  unfold Soup.get_text. now apply StripFacts.all_space_join.
Qed.

Lemma blank_list_gives_empty_text_witness :
  policy_text Cases.empty_list_page = Ok "".
Proof.
  refine (blank_list_gives_empty_text Cases.empty_list_page _ _ eq_refl eq_refl _).
  repeat constructor.
Defined.

(** X18. A guideline with at most 253 rules nested below its root rule
    can be dumped, and validating the dump gives the guideline back; with
    more, [model_dump] raises and the validator rejects the dict that
    spells the guideline out.  A guideline that passed validation is
    always within the bound, so it can be dumped and read back. *)
Theorem guideline_round_trip :
  (forall g : Guideline.t,
      Rule.nesting (Guideline.rules g) <= 253 ->
      Guideline.model_dump g = Ok (Guideline.dump g) /\
      Guideline.model_validate (Guideline.dump g) = Some g) /\
  (forall g : Guideline.t,
      254 <= Rule.nesting (Guideline.rules g) ->
      Guideline.model_dump g = Raise (ValueError Circular_reference_detected) /\
      Guideline.model_validate (Guideline.dump g) = None) /\
  (forall (j : json) (g : Guideline.t),
      Guideline.model_validate j = Some g ->
      exists j', Guideline.model_dump g = Ok j' /\
                 Guideline.model_validate j' = Some g).
Proof.
  assert (Hv : forall g, Guideline.model_validate (Guideline.dump g)
                         = match Rule.validate_within 253
                                   (Rule.dump (Guideline.rules g)) with
                           | Some r => Some (Guideline.Build
                                               (Guideline.title g)
                                               (Guideline.insurance_name g) r)
                           | None => None
                           end) by (intros [a b r]; reflexivity).
  assert (Hok : forall g, Rule.nesting (Guideline.rules g) <= 253 ->
                          Guideline.model_dump g = Ok (Guideline.dump g) /\
                          Guideline.model_validate (Guideline.dump g) = Some g).
  { intros g Hn. split.
    - unfold Guideline.model_dump.
      replace (S (Rule.nesting (Guideline.rules g))
               <? Rule.recursion_guard_limit)%nat with true; [reflexivity|].
      symmetry. apply Nat.ltb_lt. unfold Rule.recursion_guard_limit. lia.
    - rewrite Hv, (SchemaFacts.validate_dump _ _ Hn). now destruct g. }
  split; [exact Hok|]. split.
  - intros g Hn. split.
    + unfold Guideline.model_dump.
      replace (S (Rule.nesting (Guideline.rules g))
               <? Rule.recursion_guard_limit)%nat with false; [reflexivity|].
      symmetry. apply Nat.ltb_ge. unfold Rule.recursion_guard_limit. lia.
    + rewrite Hv, SchemaFacts.dump_refused; [reflexivity | lia].
  - intros j g H. exists (Guideline.dump g).
    apply Hok. destruct j as [| | | | |d]; try discriminate.
    apply SchemaFacts.guideline_validate_fields in H as (_ & _ & root & _ & Hr).
    change (Rule.reference (Rule.recursion_guard_limit - 1))
      with (Rule.validate_within 253) in Hr.
    exact (SchemaFacts.validated_nesting _ _ _ Hr).
Qed.

Lemma guideline_round_trip_witness :
  Guideline.model_dump Fixtures.minimal_guideline
  = Ok (Guideline.dump Fixtures.minimal_guideline) /\
  Guideline.model_validate (Guideline.dump Fixtures.minimal_guideline)
  = Some Fixtures.minimal_guideline.
Proof.
  apply (proj1 guideline_round_trip Fixtures.minimal_guideline).
  vm_compute. repeat constructor.
Defined.

(** X19. Keys that are not fields of [Rule] are ignored: writing any value
    under such a key changes nothing to the validation of the dict. *)
Theorem extra_keys_ignored :
  forall (d : dict) (k : string) (v : json),
    ~ In k rule_fields ->
    Rule.model_validate (JObject (dict_set k v d))
    = Rule.model_validate (JObject d).
Proof.
  intros d k v Hk.
  assert (Hne : forall f, In f rule_fields -> f <> k).
  { intros f Hf ->. contradiction. }
  rewrite !SchemaFacts.rule_validate_dict.
  unfold Rule.str_field, Rule.optional_str_field.
  rewrite !DictFacts.dict_get_set_other
    by (apply Hne; unfold rule_fields; simpl; tauto).
  reflexivity.
Qed.

Lemma extra_keys_ignored_witness :
  Rule.model_validate
    (JObject (dict_set "note" (JNumber "1")
                [("rule_id", JString "1"); ("rule_text", JString "x")]))
  = Rule.model_validate
      (JObject [("rule_id", JString "1"); ("rule_text", JString "x")]).
Proof.
  apply (extra_keys_ignored
           [("rule_id", JString "1"); ("rule_text", JString "x")]
           "note" (JNumber "1")).
  unfold rule_fields. simpl.
  intros [H | [H | [H | [H | []]]]]; discriminate H.
Defined.
